(** * Financing Request Portal: validation rules, form controller and
      submission client

    A shallow embedding of the TypeScript sources of the portal
    ([utils/Constants.ts], the [FinancingForm] component and its earlier
    revisions) together with the parts of the JavaScript [Date] object, of
    [dayjs] and of [yup] that these sources call.

    Conventions of the model.
    - A JavaScript time value is an integer number of milliseconds since the
      epoch ([Z]).  The local time zone is a fixed offset [tz], in minutes
      east of UTC (what [dayjs().utcOffset()] returns).  Zones whose offset
      changes are outside the model: there a local midnight may not exist,
      and the difference in months that [dayjs] computes between two dates
      can be off the calendar by a fraction of an hour.  What is proved of
      the number of years is proved for zones of fixed offset.
    - JavaScript numbers that the program computes on dates are modelled by
      exact rationals ([Q]).  Every comparison the program makes on them
      ([< 1], [> 3], rounding at [.5]) is between values that are either equal
      or far apart compared with the precision of a double, so the decisions
      are the ones of the floating-point program.
    - A string of the program is the [string] of its UTF-16 code units, one
      character for each unit, for the strings whose units are below 256;
      [String.length] is then [.length].  Other strings are outside the
      model.                                                                *)

From Stdlib Require Import ZArith QArith Qround String Ascii List Bool Lia.
From Stdlib Require Import Permutation Sorted.
Import ListNotations.

Open Scope string_scope.
Open Scope Z_scope.

(* ================================================================== *)
(** * Part I: the program                                              *)
(* ================================================================== *)

(** ** JavaScript strings and numbers *)

Module Js.

Definition digitChar (d : Z) : ascii := ascii_of_nat (Z.to_nat (48 + d)).

Definition digitValue (c : ascii) : option Z :=
  let n := Z.of_nat (nat_of_ascii c) in
  if (48 <=? n) && (n <=? 57) then Some (n - 48) else None.

(** Decimal digits of a non-negative integer, most significant first;
    [fuel + 1] digits at most. *)
Fixpoint decimal (fuel : nat) (n : Z) (acc : string) : string :=
  let acc' := String (digitChar (n mod 10)) acc in
  match fuel with
  | O => acc'
  | S f => if n / 10 =? 0 then acc' else decimal f (n / 10) acc'
  end.

(** [String(n)] for an integer [n]. *)
Definition Number_toString (n : Z) : string :=
  if n <? 0
  then String "-" (decimal (Z.to_nat (Z.log2 (- n))) (- n) "")
  else decimal (Z.to_nat (Z.log2 n)) n "".

Fixpoint replicate (n : nat) (c : ascii) : string :=
  match n with
  | O => ""
  | S k => String c (replicate k c)
  end.

(** [s.padStart(len, c)]. *)
Definition padStart (len : nat) (c : ascii) (s : string) : string :=
  replicate (len - String.length s) c ++ s.

(** [s.split(c)[0]]: the part of [s] before the first [c]. *)
Fixpoint split_first (c : ascii) (s : string) : string :=
  match s with
  | EmptyString => ""
  | String a r => if Ascii.eqb a c then "" else String a (split_first c r)
  end.

(** [arr.includes(x)] on an array of strings. *)
Definition Array_includes (arr : list string) (x : string) : bool :=
  existsb (String.eqb x) arr.

(** [Math.round]: the nearest integer, halves towards plus infinity. *)
Definition Math_round (x : Q) : Z := Qfloor (x + (1 # 2))%Q.

Definition Qltb (x y : Q) : bool := negb (Qle_bool y x).

End Js.

(** ** The [Date] object (ECMA-262, Time Values and Time Range) *)

Module JsDate.

Definition msPerDay : Z := 86400000.
Definition msPerMinute : Z := 60000.

Definition Day (t : Z) : Z := t / msPerDay.
Definition TimeWithinDay (t : Z) : Z := t mod msPerDay.

Definition DaysInYear (y : Z) : Z :=
  if negb (y mod 4 =? 0) then 365
  else if negb (y mod 100 =? 0) then 366
  else if negb (y mod 400 =? 0) then 365
  else 366.

Definition InLeapYear (y : Z) : Z := DaysInYear y - 365.

Definition DayFromYear (y : Z) : Z :=
  365 * (y - 1970) + (y - 1969) / 4 - (y - 1901) / 100 + (y - 1601) / 400.

(** The year that contains day number [n]: the largest [y] with
    [DayFromYear y <= n], computed on the 400, 100, 4 and 1 year cycles
    counted from 1 January of year 1. *)
Definition YearFromDay (n : Z) : Z :=
  let N := n + 719162 in
  let n400 := N / 146097 in
  let r := N mod 146097 in
  let n100 := Z.min (r / 36524) 3 in
  let r := r - n100 * 36524 in
  let n4 := r / 1461 in
  let r := r mod 1461 in
  let n1 := Z.min (r / 365) 3 in
  1 + 400 * n400 + 100 * n100 + 4 * n4 + n1.

(** Day within the year on which month [m] (0 = January) starts; [leap] is 1
    in a leap year and 0 otherwise. *)
Definition monthStart (leap m : Z) : Z :=
  match m with
  | 0 => 0
  | 1 => 31
  | 2 => 59 + leap
  | 3 => 90 + leap
  | 4 => 120 + leap
  | 5 => 151 + leap
  | 6 => 181 + leap
  | 7 => 212 + leap
  | 8 => 243 + leap
  | 9 => 273 + leap
  | 10 => 304 + leap
  | 11 => 334 + leap
  | _ => 365 + leap
  end.

Definition DayWithinYear (n : Z) : Z := n - DayFromYear (YearFromDay n).

Definition MonthFromDay (n : Z) : Z :=
  let leap := InLeapYear (YearFromDay n) in
  let d := DayWithinYear n in
  if d <? monthStart leap 1 then 0
  else if d <? monthStart leap 2 then 1
  else if d <? monthStart leap 3 then 2
  else if d <? monthStart leap 4 then 3
  else if d <? monthStart leap 5 then 4
  else if d <? monthStart leap 6 then 5
  else if d <? monthStart leap 7 then 6
  else if d <? monthStart leap 8 then 7
  else if d <? monthStart leap 9 then 8
  else if d <? monthStart leap 10 then 9
  else if d <? monthStart leap 11 then 10
  else 11.

Definition DateFromDay (n : Z) : Z :=
  DayWithinYear n - monthStart (InLeapYear (YearFromDay n)) (MonthFromDay n) + 1.

(** [MakeDay(year, month, date)]: months and dates out of range carry over. *)
Definition MakeDay (year month date : Z) : Z :=
  let ym := year + month / 12 in
  let mn := month mod 12 in
  DayFromYear ym + monthStart (InLeapYear ym) mn + date - 1.

Definition MakeDate (day time : Z) : Z := day * msPerDay + time.

Section Zone.

(** Offset of local time from UTC, in minutes; the same at every
    instant. *)
Variable tz : Z.

Definition LocalTZA : Z := tz * msPerMinute.
Definition LocalTime (t : Z) : Z := t + LocalTZA.
Definition UTC (t : Z) : Z := t - LocalTZA.

Definition getFullYear (t : Z) : Z := YearFromDay (Day (LocalTime t)).
Definition getMonth (t : Z) : Z := MonthFromDay (Day (LocalTime t)).
Definition getDate (t : Z) : Z := DateFromDay (Day (LocalTime t)).

(** [new Date(year, month, date)]: local midnight of that day; a year from 0
    to 99 stands for 1900 + year. *)
Definition newDate (year month date : Z) : Z :=
  let yr := if (0 <=? year) && (year <=? 99) then 1900 + year else year in
  UTC (MakeDate (MakeDay yr month date) 0).

Definition setDate (t date : Z) : Z :=
  UTC (MakeDate (MakeDay (getFullYear t) (getMonth t) date)
                (TimeWithinDay (LocalTime t))).

Definition setMonth (t month : Z) : Z :=
  UTC (MakeDate (MakeDay (getFullYear t) month (getDate t))
                (TimeWithinDay (LocalTime t))).

(** [setHours(h, m, s, ms)] with the time of day given in milliseconds. *)
Definition setHours (t time : Z) : Z :=
  UTC (MakeDate (Day (LocalTime t)) time).

(** The time value of local midnight on day [n]. *)
Definition midnight (n : Z) : Z := UTC (MakeDate n 0).

End Zone.

Definition pad (len : nat) (n : Z) : string :=
  Js.padStart len "0" (Js.Number_toString n).

(** [toISOString()]: the UTC fields as [YYYY-MM-DDTHH:mm:ss.sssZ], with a
    signed six-digit year outside 0..9999. *)
Definition toISOString (t : Z) : string :=
  let n := Day t in
  let y := YearFromDay n in
  let w := TimeWithinDay t in
  let year :=
    if (0 <=? y) && (y <=? 9999) then pad 4 y
    else String (if y <? 0 then "-"%char else "+"%char) (pad 6 (Z.abs y)) in
  year ++ "-" ++ pad 2 (MonthFromDay n + 1) ++ "-" ++ pad 2 (DateFromDay n)
    ++ "T" ++ pad 2 (w / 3600000) ++ ":" ++ pad 2 (w / 60000 mod 60)
    ++ ":" ++ pad 2 (w / 1000 mod 60) ++ "." ++ pad 3 (w mod 1000) ++ "Z".

End JsDate.

(** ** The parts of [dayjs] that the portal calls

    The library is a dependency of the portal; the definitions follow its
    sources ([src/index.js] for [parseDate], [$set], [add], [startOf],
    [isSame], [isBefore], [isAfter], [diff] and [format]; [src/utils.js] for
    [monthDiff]; [plugin/isSameOrAfter]).

    A valid [dayjs] object is represented by its time value; its fields
    [$y], [$M], [$D] are what [init()] reads back from the [Date].  An
    invalid date is [None]. *)

Module Dayjs.

Import JsDate.

Section Zone.

Variable tz : Z.

Definition year (t : Z) : Z := getFullYear tz t.
Definition month (t : Z) : Z := getMonth tz t.
Definition date (t : Z) : Z := getDate tz t.

(** [dayjs(s)] for a date-only string [YYYY-MM-DD]: the parser reads the
    three groups of digits and calls [new Date(y, m - 1, d)], so that the
    result is local midnight and a day or month out of range carries over.
    The other layouts that the parser of the library accepts (no separators,
    one-digit groups, a time part) are not modelled: they are read as an
    invalid date here. *)
Definition parse (s : string) : option Z :=
  match s with
  | String y1 (String y2 (String y3 (String y4 (String "-"
      (String m1 (String m2 (String "-"
        (String d1 (String d2 EmptyString))))))))) =>
      match Js.digitValue y1, Js.digitValue y2, Js.digitValue y3,
            Js.digitValue y4, Js.digitValue m1, Js.digitValue m2,
            Js.digitValue d1, Js.digitValue d2 with
      | Some a, Some b, Some c, Some d, Some e, Some f, Some g, Some h =>
          Some (newDate tz (1000 * a + 100 * b + 10 * c + d)
                           (10 * e + f - 1) (10 * g + h))
      | _, _, _, _, _, _, _, _ => None
      end
  | _ => None
  end.

(** [startOf('day')] and [endOf('day')]: [setHours(0, 0, 0, 0)] and
    [setHours(23, 59, 59, 999)]. *)
Definition startOf_day (t : Z) : Z := setHours tz t 0.
Definition endOf_day (t : Z) : Z := setHours tz t 86399999.

(** [daysInMonth()] is [this.endOf('month').$D], and the end of the month is
    the end of the day [new Date($y, $M + 1, 0)]. *)
Definition daysInMonth (t : Z) : Z :=
  date (endOf_day (newDate tz (year t) (month t + 1) 0)).

(** [set('month', arg)]: go to the first of the month, set the month, then
    come back to the day of the month, or to the last day of a shorter
    month. *)
Definition set_month (t arg : Z) : Z :=
  let date1 := setMonth tz (setDate tz t 1) arg in
  setDate tz date1 (Z.min (date t) (daysInMonth date1)).

Definition add_month (t n : Z) : Z := set_month t (month t + n).

(** [add(n, 'day')] is [date(date() + n)]. *)
Definition add_day (t n : Z) : Z := setDate tz t (date t + n).

(** [isBefore(that)] and [isSame(that)] without a unit compare the time
    values. *)
Definition isBefore (this that : Z) : bool := this <? that.
Definition isSame (this that : Z) : bool := (this <=? that) && (that <=? this).

(** On an invalid date every comparison is false. *)
Definition compare2 (f : Z -> Z -> bool) (this that : option Z) : bool :=
  match this, that with
  | Some a, Some b => f a b
  | _, _ => false
  end.

Definition isSame_day (this that : Z) : bool :=
  (startOf_day this <=? that) && (that <=? endOf_day this).
Definition isAfter_day (this that : Z) : bool := that <? startOf_day this.

(** Plugin [isSameOrAfter]. *)
Definition isSameOrAfter_day (this that : Z) : bool :=
  isSame_day this that || isAfter_day this that.

(** [monthDiff(a, b)] of [utils.js] when [a.date() >= b.date()]. *)
Definition monthDiff_aligned (a b : Z) : Q :=
  let wholeMonthDiff := (year b - year a) * 12 + (month b - month a) in
  let anchor := add_month a wholeMonthDiff in
  let c := b - anchor <? 0 in
  let anchor2 := add_month a (wholeMonthDiff + (if c then -1 else 1)) in
  - (inject_Z wholeMonthDiff
     + inject_Z (b - anchor)
       / inject_Z (if c then anchor - anchor2 else anchor2 - anchor))%Q.

(** [monthDiff(a, b)]: when [a.date() < b.date()] the function calls itself
    on [(b, a)] and negates; that inner call is on aligned arguments. *)
Definition monthDiff (a b : Z) : Q :=
  if date a <? date b then (- monthDiff_aligned b a)%Q
  else monthDiff_aligned a b.

(** [this.diff(that, 'year', true)]; on an invalid date [monthDiff] is
    [NaN || 0]. *)
Definition diff_year (this that : option Z) : Q :=
  match this, that with
  | Some a, Some b => (monthDiff a b / inject_Z 12)%Q
  | _, _ => 0%Q
  end.

(** [format('YYYY-MM-DD')]. *)
Definition format (t : Z) : string :=
  pad 4 (year t) ++ "-" ++ pad 2 (month t + 1) ++ "-" ++ pad 2 (date t).

End Zone.

End Dayjs.

(** ** The parts of [yup] that the schema uses

    The library is a dependency of the portal; the definitions follow the
    tests that [string()], [number()] and [test()] add to a schema, and the
    resolver of the form, which validates with [abortEarly: false] and keeps
    the first error of each field. *)

Module Yup.

(** A character class or a literal character, and a regular expression of
    the shape [^ c1{n1} c2{n2} ... $]. *)
Inductive CharSet : Type :=
| Range (lo hi : ascii)
| Lit (c : ascii).

Definition Regex : Type := list (CharSet * nat).

Definition inSet (cs : CharSet) (c : ascii) : bool :=
  match cs with
  | Range lo hi =>
      (nat_of_ascii lo <=? nat_of_ascii c)%nat
      && (nat_of_ascii c <=? nat_of_ascii hi)%nat
  | Lit x => Ascii.eqb c x
  end.

(** Consume exactly [n] characters of the class. *)
Fixpoint matchRepeat (cs : CharSet) (n : nat) (s : string) : option string :=
  match n with
  | O => Some s
  | S k =>
      match s with
      | String c r => if inSet cs c then matchRepeat cs k r else None
      | EmptyString => None
      end
  end.

(** [s.search(re) !== -1] for an anchored expression. *)
Fixpoint search (re : Regex) (s : string) : bool :=
  match re with
  | [] => match s with EmptyString => true | _ => false end
  | (cs, n) :: re' =>
      match matchRepeat cs n s with
      | Some r => search re' r
      | None => false
      end
  end.

(** A test gives [None] when the value passes and its message otherwise. *)
Definition Test (A : Type) : Type := A -> option string.

(** The tests of a schema run in the order of the chain; the resolver of the
    form keeps the first message of each field. *)
Fixpoint firstError {A : Type} (tests : list (Test A)) (v : A) : option string :=
  match tests with
  | [] => None
  | t :: ts =>
      match t v with
      | Some m => Some m
      | None => firstError ts v
      end
  end.

(** [string().required(message)]: the value has a character. *)
Definition required (message : string) : Test string :=
  fun v => if (String.length v =? 0)%nat then Some message else None.

(** [string().matches(regex, message)]. *)
Definition matches (re : Regex) (message : string) : Test string :=
  fun v => if search re v then None else Some message.

(** [string().max(n, message)]: [value.length <= n], in UTF-16 code units,
    which are the characters of the model. *)
Definition max (n : nat) (message : string) : Test string :=
  fun v => if (String.length v <=? n)%nat then None else Some message.

(** [number().positive(message)]; an absent value is left to [required]. *)
Definition positive (message : string) : Test (option Q) :=
  fun v =>
    match v with
    | Some q => if Js.Qltb 0 q then None else Some message
    | None => None
    end.

Definition number_required (message : string) : Test (option Q) :=
  fun v => match v with Some _ => None | None => Some message end.

(** What the function of a custom test returns: [true], [false], or
    [this.createError({ message })]. *)
Inductive TestReturn : Type :=
| ReturnTrue
| ReturnFalse
| CreateError (message : string).

(** [.test(name, message, fn)]. *)
Definition test {A : Type} (message : string) (fn : A -> TestReturn) : Test A :=
  fun v =>
    match fn v with
    | ReturnTrue => None
    | ReturnFalse => Some message
    | CreateError m => Some m
    end.

End Yup.

(** ** The value of a date input

    The two date fields are [<input type="date">] controls: the value of
    such a control is the empty string or a calendar date written
    [YYYY-MM-DD]. *)

Module DateInput.

Record t : Type := mk {
  year : Z;
  month : Z;   (* 1 .. 12 *)
  day : Z
}.

Definition daysIn (y m : Z) : Z :=
  JsDate.monthStart (JsDate.InLeapYear y) m
  - JsDate.monthStart (JsDate.InLeapYear y) (m - 1).

(** A date of the calendar with a year of four digits. *)
Definition wellFormed (d : t) : Prop :=
  1000 <= year d <= 9999 /\ 1 <= month d <= 12 /\ 1 <= day d <= daysIn (year d) (month d).

Definition value (d : t) : string :=
  JsDate.pad 4 (year d) ++ "-" ++ JsDate.pad 2 (month d) ++ "-"
    ++ JsDate.pad 2 (day d).

(** The number of the day, counted from 1 January 1970. *)
Definition dayNumber (d : t) : Z := JsDate.MakeDay (year d) (month d - 1) (day d).

(** Local midnight of the date, in the zone [tz]. *)
Definition timeValue (tz : Z) (d : t) : Z := JsDate.midnight tz (dayNumber d).

End DateInput.

(** ** The values of the form and the body of the request *)

Module Values.

(** [FinancingFormValues].  An input that is empty holds the empty string;
    [amount] is the number that the schema casts the input to, [None] when
    there is none. *)
Record t : Type := mk {
  name : string;
  country : string;
  projectCode : string;
  description : string;
  amount : option Q;
  currency : string;
  startDate : string;
  endDate : string
}.

(** The values after [reset()]: the form declares no default values. *)
Definition empty : t := mk "" "" "" "" None "" "" "".

Definition set_country (v : string) (d : t) : t :=
  mk (name d) v (projectCode d) (description d) (amount d) (currency d)
     (startDate d) (endDate d).

Definition set_currency (v : string) (d : t) : t :=
  mk (name d) (country d) (projectCode d) (description d) (amount d) v
     (startDate d) (endDate d).

End Values.

Module Api.

(** [apiData], the JSON body of the request. *)
Record t : Type := mk {
  fullName : string;
  countryCode : string;
  projectCode : string;
  description : string;
  amount : option Q;
  currency : string;
  date : string;
  validityPeriod : Z
}.

End Api.

(** ** [utils/Constants.ts], current revision *)

Module Constants.

Definition MIN_YEARS : Z := 1.
Definition MAX_YEARS : Z := 3.
Definition MIN_DAYS_FROM_NOW : Z := 15.
Definition DESCRIPTION_MAX_LENGTH : nat := 150.

Definition REQUESTS : string :=
  "http://test-noema-api.azurewebsites.net/api/requests".

Definition OPEC_COUNTRIES : list string :=
  [ "DZ"; "AO"; "CG"; "GQ"; "GA"; "IR"; "IQ"; "KW"; "LY"; "NG"; "SA"; "AE";
    "VE" ].

(** [/^[A-Z]{4}-[1-9]{4}$/] *)
Definition projectCodeRegex : Yup.Regex :=
  [ (Yup.Range "A" "Z", 4%nat); (Yup.Lit "-", 1%nat);
    (Yup.Range "1" "9", 4%nat) ].

Section Clock.

(** The zone of the browser and the value of [Date.now()] when the code
    runs. *)
Variables (tz now : Z).

Definition getMinStartDate : string :=
  let minDate := Dayjs.add_day tz now MIN_DAYS_FROM_NOW in
  Dayjs.format tz minDate.

Definition calculateValidityPeriod (startDate endDate : string) : Q :=
  let start := Dayjs.parse tz startDate in
  let end_ := Dayjs.parse tz endDate in
  Dayjs.diff_year tz end_ start.

Definition name_tests : list (Yup.Test string) :=
  [ Yup.required "Name is required" ].

Definition country_tests : list (Yup.Test string) :=
  [ Yup.required "Country is required" ].

Definition projectCode_tests : list (Yup.Test string) :=
  [ Yup.matches projectCodeRegex "Invalid project code format (e.g., ABCD-1234)";
    Yup.required "Project code is required" ].

Definition description_tests : list (Yup.Test string) :=
  [ Yup.max DESCRIPTION_MAX_LENGTH
      ("Description must be "
         ++ Js.Number_toString (Z.of_nat DESCRIPTION_MAX_LENGTH)
         ++ " characters or less");
    Yup.required "Description is required" ].

(** The tests of [amount].  On an input left empty the schema casts the
    text to [NaN] and answers with the message of its type check, which is
    not modelled: the field fails there as it does here, with another
    message.  Only the failure on [None] is used in what follows. *)
Definition amount_tests : list (Yup.Test (option Q)) :=
  [ Yup.positive "Amount must be positive";
    Yup.number_required "Amount is required" ].

Definition currency_tests : list (Yup.Test string) :=
  [ Yup.required "Currency is required" ].

(** The function of the test [min-start-date]. *)
Definition min_start_date (value : string) : Yup.TestReturn :=
  if String.eqb value "" then Yup.ReturnFalse
  else
    let minDate := Dayjs.add_day tz now MIN_DAYS_FROM_NOW in
    let selectedDate := Dayjs.parse tz value in
    if Dayjs.compare2 (Dayjs.isSameOrAfter_day tz) selectedDate (Some minDate)
    then Yup.ReturnTrue
    else Yup.ReturnFalse.

Definition startDate_tests : list (Yup.Test string) :=
  [ Yup.required "Start date is required";
    Yup.test "Start date must be at least 15 days from today" min_start_date ].

(** The function of the test [validity-period]; [parent] is the object under
    validation. *)
Definition validity_period (parent : Values.t) (value : string)
  : Yup.TestReturn :=
  if String.eqb value "" then Yup.ReturnFalse
  else
    let startDate := Values.startDate parent in
    if String.eqb startDate "" then Yup.ReturnFalse
    else
      let start := Dayjs.parse tz startDate in
      let end_ := Dayjs.parse tz value in
      if Dayjs.compare2 Dayjs.isBefore end_ start
         || Dayjs.compare2 Dayjs.isSame end_ start
      then Yup.CreateError "End date must be after start date"
      else
        let validityPeriod := calculateValidityPeriod startDate value in
        if Js.Qltb validityPeriod (inject_Z MIN_YEARS)
        then Yup.CreateError
               ("Validity period must be at least "
                  ++ Js.Number_toString MIN_YEARS ++ " year")
        else if Js.Qltb (inject_Z MAX_YEARS) validityPeriod
        then Yup.CreateError
               ("Validity period cannot exceed "
                  ++ Js.Number_toString MAX_YEARS ++ " years")
        else Yup.ReturnTrue.

Definition endDate_tests (parent : Values.t) : list (Yup.Test string) :=
  [ Yup.required "End date is required";
    Yup.test "Invalid validity period" (validity_period parent) ].

(** [financingSchema]: the message of each field, in the order of the
    shape. *)
Record Errors : Type := mkErrors {
  e_name : option string;
  e_country : option string;
  e_projectCode : option string;
  e_description : option string;
  e_amount : option string;
  e_currency : option string;
  e_startDate : option string;
  e_endDate : option string
}.

Definition financingSchema (data : Values.t) : Errors :=
  mkErrors
    (Yup.firstError name_tests (Values.name data))
    (Yup.firstError country_tests (Values.country data))
    (Yup.firstError projectCode_tests (Values.projectCode data))
    (Yup.firstError description_tests (Values.description data))
    (Yup.firstError amount_tests (Values.amount data))
    (Yup.firstError currency_tests (Values.currency data))
    (Yup.firstError startDate_tests (Values.startDate data))
    (Yup.firstError (endDate_tests data) (Values.endDate data)).

Definition passes (e : option string) : bool :=
  match e with
  | None => true
  | Some _ => false
  end.

(** [formState.isValid]: the resolver reports no error. *)
Definition isValid (data : Values.t) : bool :=
  let e := financingSchema data in
  passes (e_name e) && passes (e_country e) && passes (e_projectCode e)
  && passes (e_description e) && passes (e_amount e) && passes (e_currency e)
  && passes (e_startDate e) && passes (e_endDate e).

End Clock.

End Constants.

(** ** The [FinancingForm] component, current revision *)

Module FinancingForm.

(** The state of the component: the values that the form holds and the two
    [useState] cells. *)
Record State : Type := mkState {
  values : Values.t;
  isOpec : bool;
  isSubmitting : bool
}.

(** What the component does to the outside. *)
Inductive Effect : Type :=
| ConsoleError
| Post (url : string) (body : Api.t)
| ToastSuccess (message : string)
| ToastError (message : string).

(** A computation of the component reads and writes the state and appends
    to the trace of effects. *)
Definition M (A : Type) : Type := State -> list Effect -> A * State * list Effect.

Definition ret {A : Type} (a : A) : M A := fun st tr => (a, st, tr).

Definition bind {A B : Type} (m : M A) (k : A -> M B) : M B :=
  fun st tr => let '(a, st', tr') := m st tr in k a st' tr'.

Notation "x <- m ;; k" := (bind m (fun x => k))
  (at level 61, m at next level, right associativity).
Notation "m ;;; k" := (bind m (fun _ => k))
  (at level 61, right associativity).

Definition watch_country : M string :=
  fun st tr => (Values.country (values st), st, tr).

Definition setIsOpec (b : bool) : M unit :=
  fun st tr => (tt, mkState (values st) b (isSubmitting st), tr).

Definition setIsSubmitting (b : bool) : M unit :=
  fun st tr => (tt, mkState (values st) (isOpec st) b, tr).

(** [setValue('currency', v)] *)
Definition setValue_currency (v : string) : M unit :=
  fun st tr =>
    (tt, mkState (Values.set_currency v (values st)) (isOpec st)
                 (isSubmitting st), tr).

(** The user picks a country in the select registered as ['country']. *)
Definition input_country (v : string) : M unit :=
  fun st tr =>
    (tt, mkState (Values.set_country v (values st)) (isOpec st)
                 (isSubmitting st), tr).

Definition reset : M unit :=
  fun st tr => (tt, mkState Values.empty (isOpec st) (isSubmitting st), tr).

Definition emit (e : Effect) : M unit :=
  fun st tr => (tt, st, (tr ++ [e])%list).

(** The state after a computation, and the effects that it adds to an empty
    trace. *)
Definition exec {A : Type} (m : M A) (st : State) : State := snd (fst (m st [])).
Definition effects {A : Type} (m : M A) (st : State) : list Effect := snd (m st []).

(** The effect that depends on [selectedCountry]. *)
Definition countryEffect : M unit :=
  selectedCountry <- watch_country ;;
  let isOpecCountry := Js.Array_includes Constants.OPEC_COUNTRIES selectedCountry in
  setIsOpec isOpecCountry ;;;
  if isOpecCountry then setValue_currency "USD" else ret tt.

(** A change of the country, followed by the effect that the change
    triggers. *)
Definition changeCountry (v : string) : M unit :=
  input_country v ;;; countryEffect.

(** The currency control is a disabled text input when [isOpec] holds and
    a select registered as ['currency'] otherwise. *)
Definition currencyIsUserEditable (st : State) : bool := negb (isOpec st).

(** What [axios.post] throws. *)
Record Response : Type := mkResponse {
  status : Z;
  data_message : option string
}.

Inductive Thrown : Type :=
| AxiosError (response : option Response) (request : bool) (message : string)
| OtherError (message : string)
| NotAnError.

Inductive PostResult : Type :=
| Resolved
| Rejected (error : Thrown).

(** [a || b] on strings, [a] possibly undefined. *)
Definition orElse (a : option string) (b : string) : string :=
  match a with
  | Some m => if String.eqb m "" then b else m
  | None => b
  end.

(** The message that the [catch] block computes. *)
Definition errorMessage (error : Thrown) : string :=
  match error with
  | AxiosError (Some response) _ _ =>
      let status := status response in
      match status with
      | 400 => "Invalid request data. Please check your information and try again."
      | 401 => "Authentication required. Please log in and try again."
      | 403 => "Access denied. You do not have permission to submit this request."
      | 409 => "A request with this project code already exists. Please use a different project code."
      | 422 => "Validation error. Please check your form data and try again."
      | 500 => "Server error. Please try again later."
      | _ =>
          orElse (data_message response)
                 ("Server error (" ++ Js.Number_toString status
                    ++ "). Please try again.")
      end
  | AxiosError None true _ =>
      "Network error. Please check your internet connection and try again."
  | AxiosError None false message =>
      orElse (Some message) "An unexpected error occurred. Please try again."
  | OtherError message => message
  | NotAnError => "Failed to submit request. Please try again."
  end.

Section Clock.

Variable tz : Z.

Definition apiData (data : Values.t) : Api.t :=
  let validityPeriod :=
    Constants.calculateValidityPeriod tz (Values.startDate data)
                                      (Values.endDate data) in
  Api.mk (Values.name data) (Values.country data) (Values.projectCode data)
         (Values.description data) (Values.amount data) (Values.currency data)
         (Values.startDate data) (Js.Math_round validityPeriod).

(** [onSubmit(data)]; [post] is what the request does. *)
Definition onSubmit (data : Values.t) (post : PostResult) : M unit :=
  setIsSubmitting true ;;;
  emit (Post Constants.REQUESTS (apiData data)) ;;;
  match post with
  | Resolved =>
      emit (ToastSuccess "Financing request submitted successfully!") ;;;
      reset ;;;
      setIsOpec false
  | Rejected error =>
      emit ConsoleError ;;;
      emit (ToastError (errorMessage error))
  end ;;;
  setIsSubmitting false.

(** [handleSubmit(onSubmit)]: the submission runs on the values of the form
    when they are valid; the button is disabled while a request is in
    flight.  The button is disabled on [formState.isValid] too, which the
    form library updates on the changes of the user and not on [setValue]:
    it can stay false on values that are valid, and the click that the
    model lets through does not happen then.  The model has every
    submission of the component, and these besides. *)
Definition submit (now : Z) (post : PostResult) : M unit :=
  fun st tr =>
    if negb (isSubmitting st) && Constants.isValid tz now (values st)
    then onSubmit (values st) post st tr
    else (tt, st, tr).

End Clock.

End FinancingForm.

(** ** The earlier revision of the schema and of the component

    Before the helpers [getMinStartDate] and [calculateValidityPeriod] were
    introduced, the component computed the minimum start date and the
    validity period itself, and the schema measured the period from a fixed
    date. *)

Module Earlier.

Section Clock.

Variables (tz now : Z).

(** [new Date(Date.now() + 1296000000).toISOString().split('T')[0]] *)
Definition minStartDate : string :=
  Js.split_first "T" (JsDate.toISOString (now + 1296000000)).

(** The function of the test [validity-period] of the earlier schema: the
    start is a fixed date. *)
Definition validity_period (value : string) : Yup.TestReturn :=
  if String.eqb value "" then Yup.ReturnFalse
  else
    let start := Dayjs.parse tz "2025-07-01" in
    let end_ := Dayjs.parse tz value in
    if Dayjs.compare2 Dayjs.isBefore end_ start
       || Dayjs.compare2 Dayjs.isSame end_ start
    then Yup.CreateError "End date must be after start date"
    else
      let validityPeriod := Dayjs.diff_year tz end_ start in
      if Js.Qltb validityPeriod 1
      then Yup.CreateError "Validity period must be at least 1 year"
      else if Js.Qltb 3 validityPeriod
      then Yup.CreateError "Validity period cannot exceed 3 years"
      else Yup.ReturnTrue.

Definition endDate_tests : list (Yup.Test string) :=
  [ Yup.required "End date is required";
    Yup.test "Invalid validity period" validity_period ].

(** The earlier schema has a single test on [startDate]. *)
Definition startDate_tests : list (Yup.Test string) :=
  [ Yup.required "Start date is required" ].

(** [new Date(s)] on a date-only string [YYYY-MM-DD] of a date of the
    calendar: midnight of that day in UTC. *)
Definition Date_of_string (s : string) : option Z := Dayjs.parse 0 s.

(** The [validityPeriod] of the earlier [onSubmit]:
    [endDate.getFullYear() - startDate.getFullYear()]; [None] stands for
    [NaN]. *)
Definition validityPeriod (data : Values.t) : option Z :=
  match Date_of_string (Values.startDate data),
        Date_of_string (Values.endDate data) with
  | Some startDate, Some endDate =>
      Some (JsDate.getFullYear tz endDate - JsDate.getFullYear tz startDate)
  | _, _ => None
  end.

End Clock.

End Earlier.

(** ** Months of the calendar *)

Module Months.

(** The number of the month of a date, counted from January of year 0. *)
Definition index (d : DateInput.t) : Z :=
  12 * DateInput.year d + (DateInput.month d - 1).

(** The first day of the month number [i]. *)
Definition firstDay (i : Z) : Z := JsDate.MakeDay 0 i 1.

(** The number of days of the month number [i]. *)
Definition length (i : Z) : Z := DateInput.daysIn (i / 12) (i mod 12 + 1).

(** The date [k] months away from [d]: the same day of the month, or the
    last day of a shorter month. *)
Definition shift (d : DateInput.t) (k : Z) : DateInput.t :=
  let i := index d + k in
  DateInput.mk (i / 12) (i mod 12 + 1) (Z.min (DateInput.day d) (length i)).

(** [monthDiff(a, b)] of [dayjs] for two dates [a] and [b] with
    [a.date() >= b.date()], computed on day numbers: the anchors are [a]
    moved by whole months. *)
Definition alignedDiff (a b : DateInput.t) : Q :=
  let wholeMonthDiff := index b - index a in
  let anchor := DateInput.dayNumber (shift a wholeMonthDiff) in
  let c := (DateInput.dayNumber b - anchor) * JsDate.msPerDay <? 0 in
  let anchor2 :=
    DateInput.dayNumber (shift a (wholeMonthDiff + (if c then -1 else 1))) in
  (- (inject_Z wholeMonthDiff
      + inject_Z ((DateInput.dayNumber b - anchor) * JsDate.msPerDay)
        / inject_Z ((if c then anchor - anchor2 else anchor2 - anchor)
                    * JsDate.msPerDay)))%Q.

(** [monthDiff(a, b)] on day numbers. *)
Definition diff (a b : DateInput.t) : Q :=
  if DateInput.day a <? DateInput.day b then (- alignedDiff b a)%Q
  else alignedDiff a b.

End Months.

(** ** A session of the user with the form *)

Module Session.

Import FinancingForm.

(** What the user does: a change of one control, or a click on the submit
    button, for which [now] is the instant of the validation and [post] what
    the request will do. *)
Inductive Event : Type :=
| InputName (v : string)
| SelectCountry (v : string)
| InputProjectCode (v : string)
| InputDescription (v : string)
| InputAmount (v : option Q)
| SelectCurrency (v : string)
| InputStartDate (v : string)
| InputEndDate (v : string)
| ClickSubmit (now : Z) (post : PostResult).

Definition setValues (f : Values.t -> Values.t) : M unit :=
  fun st tr => (tt, mkState (f (values st)) (isOpec st) (isSubmitting st), tr).

Section Clock.

Variable tz : Z.

(** The handler of each event.  The select registered as ['currency'] is
    rendered only while [isOpec] is false; a submission runs to its end
    before the next event. *)
Definition handle (ev : Event) : M unit :=
  match ev with
  | InputName v =>
      setValues (fun d =>
        Values.mk v (Values.country d) (Values.projectCode d)
          (Values.description d) (Values.amount d) (Values.currency d)
          (Values.startDate d) (Values.endDate d))
  | SelectCountry v => changeCountry v
  | InputProjectCode v =>
      setValues (fun d =>
        Values.mk (Values.name d) (Values.country d) v
          (Values.description d) (Values.amount d) (Values.currency d)
          (Values.startDate d) (Values.endDate d))
  | InputDescription v =>
      setValues (fun d =>
        Values.mk (Values.name d) (Values.country d) (Values.projectCode d)
          v (Values.amount d) (Values.currency d)
          (Values.startDate d) (Values.endDate d))
  | InputAmount v =>
      setValues (fun d =>
        Values.mk (Values.name d) (Values.country d) (Values.projectCode d)
          (Values.description d) v (Values.currency d)
          (Values.startDate d) (Values.endDate d))
  | SelectCurrency v =>
      fun st tr =>
        if currencyIsUserEditable st
        then setValues (Values.set_currency v) st tr
        else (tt, st, tr)
  | InputStartDate v =>
      setValues (fun d =>
        Values.mk (Values.name d) (Values.country d) (Values.projectCode d)
          (Values.description d) (Values.amount d) (Values.currency d)
          v (Values.endDate d))
  | InputEndDate v =>
      setValues (fun d =>
        Values.mk (Values.name d) (Values.country d) (Values.projectCode d)
          (Values.description d) (Values.amount d) (Values.currency d)
          (Values.startDate d) v)
  | ClickSubmit now post => submit tz now post
  end.

Fixpoint run (events : list Event) : M unit :=
  match events with
  | [] => ret tt
  | ev :: rest => bind (handle ev) (fun _ => run rest)
  end.

End Clock.

(** The form when the component mounts. *)
Definition initial : State := mkState Values.empty false false.

Definition isPost (e : Effect) : bool :=
  match e with Post _ _ => true | _ => false end.

Definition isToast (e : Effect) : bool :=
  match e with ToastSuccess _ | ToastError _ => true | _ => false end.

Definition isClick (ev : Event) : bool :=
  match ev with ClickSubmit _ _ => true | _ => false end.

End Session.

(** ** The provider of the reference data, current revision *)

Module AppProvider.

Record Country : Type := mkCountry {
  label : string;
  value : string
}.

(** An entry of the catalogue of countries: [name.common] and [cca2]. *)
Record CountryApiResponse : Type := mkEntry {
  common : string;
  cca2 : string
}.

(** The object of the currencies, as the list of its entries. *)
Definition Currency : Type := list (string * string).

(** An element of the result of [Promise.allSettled]. *)
Inductive Settled (A : Type) : Type :=
| Fulfilled (data : A)
| RejectedPromise.

Arguments Fulfilled {A} data.
Arguments RejectedPromise {A}.

Record State : Type := mkState {
  countries : list Country;
  currencies : Currency;
  isLoading : bool
}.

Inductive Effect : Type :=
| ConsoleError
| ToastError (message : string).

Definition fallbackCountries : list Country :=
  [ mkCountry "United States" "US"; mkCountry "United Kingdom" "GB";
    mkCountry "Germany" "DE"; mkCountry "France" "FR";
    mkCountry "Canada" "CA"; mkCountry "Australia" "AU";
    mkCountry "Japan" "JP"; mkCountry "China" "CN"; mkCountry "India" "IN";
    mkCountry "Brazil" "BR" ].

Definition fallbackCurrencies : Currency :=
  [ ("USD", "US Dollar"); ("EUR", "Euro"); ("GBP", "British Pound");
    ("JPY", "Japanese Yen"); ("CAD", "Canadian Dollar");
    ("AUD", "Australian Dollar"); ("CHF", "Swiss Franc");
    ("CNY", "Chinese Yuan"); ("INR", "Indian Rupee");
    ("BRL", "Brazilian Real") ].

Section Locale.

(** [a.localeCompare(b)] in the locale of the browser: negative, zero or
    positive. *)
Variable localeCompare : string -> string -> Z.

(** [data.sort((a, b) => a.name.common.localeCompare(b.name.common))]: the
    sort of an array is stable, an element stays before the later elements
    that compare equal to it. *)
Fixpoint insert (x : CountryApiResponse) (l : list CountryApiResponse)
  : list CountryApiResponse :=
  match l with
  | [] => [x]
  | y :: r =>
      if localeCompare (common x) (common y) <=? 0 then x :: l
      else y :: insert x r
  end.

Fixpoint sort (l : list CountryApiResponse) : list CountryApiResponse :=
  match l with
  | [] => []
  | x :: r => insert x (sort r)
  end.

Definition toCountry (country : CountryApiResponse) : Country :=
  mkCountry (common country) (cca2 country).

(** [fetchData()], on the two settled requests.  The data of the countries
    is [None] when it is not an array: [.sort] then throws, and the [catch]
    block runs before anything is set. *)
Definition fetchData
  (countriesResponse : Settled (option (list CountryApiResponse)))
  (currenciesResponse : Settled Currency) (st : State)
  : State * list Effect :=
  let st := mkState (countries st) (currencies st) true in
  let '(st, tr, thrown) :=
    match countriesResponse with
    | Fulfilled (Some data) =>
        let sortedCountries := map toCountry (sort data) in
        (mkState sortedCountries (currencies st) (isLoading st), [], false)
    | Fulfilled None => (st, [], true)
    | RejectedPromise =>
        (mkState fallbackCountries (currencies st) (isLoading st),
         [ConsoleError;
          ToastError "Failed to load countries. Using fallback list."], false)
    end in
  let '(st, tr) :=
    if thrown
    then (st, (tr ++ [ConsoleError;
                      ToastError "Failed to load application data. Please refresh the page."])%list)
    else
      match currenciesResponse with
      | Fulfilled data => (mkState (countries st) data (isLoading st), tr)
      | RejectedPromise =>
          (mkState (countries st) fallbackCurrencies (isLoading st),
           (tr ++ [ConsoleError;
                   ToastError "Failed to load currencies. Using fallback list."])%list)
      end in
  (mkState (countries st) (currencies st) false, tr).

End Locale.

(** The state when the provider mounts. *)
Definition initial : State := mkState [] [] true.

Definition isToast (e : Effect) : bool :=
  match e with ToastError _ => true | ConsoleError => false end.

Definition rejected {A : Type} (r : Settled A) : bool :=
  match r with RejectedPromise => true | Fulfilled _ => false end.

End AppProvider.

(** ** The [App] component, current revision: the dark mode *)

Module App.

(** [JSON.stringify] of a boolean. *)
Definition JSON_stringify (b : bool) : string := if b then "true" else "false".

(** [JSON.parse] on the two texts that [JSON.stringify] gives for a boolean;
    any other text is another value or a syntax error, and is [None]
    here. *)
Definition JSON_parse (s : string) : option bool :=
  if String.eqb s "true" then Some true
  else if String.eqb s "false" then Some false
  else None.

(** What the component reads and writes in the browser: the item
    ['darkMode'] of the local storage, the preference of the system and the
    class ['dark'] of the document. *)
Record Browser : Type := mkBrowser {
  darkModeItem : option string;
  prefersDark : bool;
  darkClass : bool
}.

(** The initial value of [isDarkMode]. *)
Definition initialDarkMode (br : Browser) : option bool :=
  match darkModeItem br with
  | Some saved => JSON_parse saved
  | None => Some (prefersDark br)
  end.

(** The effect that depends on [isDarkMode]. *)
Definition darkModeEffect (isDarkMode : bool) (br : Browser) : Browser :=
  mkBrowser (Some (JSON_stringify isDarkMode)) (prefersDark br) isDarkMode.

Definition toggleDarkMode (isDarkMode : bool) : bool := negb isDarkMode.

End App.

(** ** Notions used to state the properties *)

Module Spec.

Definition isUpper (c : ascii) : Prop := (65 <= nat_of_ascii c <= 90)%nat.
Definition isDigit19 (c : ascii) : Prop := (49 <= nat_of_ascii c <= 57)%nat.

(** The strings of the language of [^[A-Z]{4}-[1-9]{4}$]. *)
Definition matchesProjectCode (s : string) : Prop :=
  exists a b c d e f g h,
    s = String a (String b (String c (String d (String "-"
          (String e (String f (String g (String h "")))))))) /\
    isUpper a /\ isUpper b /\ isUpper c /\ isUpper d /\
    isDigit19 e /\ isDigit19 f /\ isDigit19 g /\ isDigit19 h.

Fixpoint contains (p : ascii -> bool) (s : string) : bool :=
  match s with
  | EmptyString => false
  | String c r => p c || contains p r
  end.

Definition isLower (c : ascii) : bool :=
  (97 <=? nat_of_ascii c)%nat && (nat_of_ascii c <=? 122)%nat.

(** The part of [s] after its first hyphen; empty when there is none. *)
Fixpoint afterHyphen (s : string) : string :=
  match s with
  | EmptyString => ""
  | String c r => if Ascii.eqb c "-" then r else afterHyphen r
  end.

Definition hasLowercase (s : string) : bool := contains isLower s.
Definition missingHyphen (s : string) : bool :=
  negb (contains (fun c => Ascii.eqb c "-") s).
Definition zeroInNumericGroup (s : string) : bool :=
  contains (fun c => Ascii.eqb c "0") (afterHyphen s).
Definition wrongLengthSegment (s : string) : bool :=
  negb (String.length (Js.split_first "-" s) =? 4)%nat
  || negb (String.length (afterHyphen s) =? 4)%nat.

Definition isWhitespace (c : ascii) : bool :=
  Ascii.eqb c " " || Ascii.eqb c "009" || Ascii.eqb c "010" || Ascii.eqb c "013".

(** The empty string and the strings of white space only. *)
Fixpoint whitespaceOnly (s : string) : bool :=
  match s with
  | EmptyString => true
  | String c r => isWhitespace c && whitespaceOnly r
  end.

Definition isT (c : ascii) : bool := Ascii.eqb c "T".

Definition FormatInvalid : string := "Invalid project code format (e.g., ABCD-1234)".
Definition NameRequired : string := "Name is required".
Definition Conflict : string :=
  "A request with this project code already exists. Please use a different project code.".

(** The statuses that the submission has a message of its own for. *)
Definition knownStatus (status : Z) : Prop :=
  status = 400 \/ status = 401 \/ status = 403 \/ status = 409
  \/ status = 422 \/ status = 500.

(** The thirteen codes of the OPEC set. *)
Definition inOpecSet (c : string) : Prop :=
  c = "DZ" \/ c = "AO" \/ c = "CG" \/ c = "GQ" \/ c = "GA" \/ c = "IR"
  \/ c = "IQ" \/ c = "KW" \/ c = "LY" \/ c = "NG" \/ c = "SA" \/ c = "AE"
  \/ c = "VE".




(** What holds of the component between two events: no request is in
    flight, [isOpec] tells whether the country of the form is in
    [OPEC_COUNTRIES], and the currency of the form is USD when it does. *)
Definition formInvariant (st : FinancingForm.State) : Prop :=
  FinancingForm.isSubmitting st = false
  /\ FinancingForm.isOpec st
     = Js.Array_includes Constants.OPEC_COUNTRIES
         (Values.country (FinancingForm.values st))
  /\ (FinancingForm.isOpec st = true ->
      Values.currency (FinancingForm.values st) = "USD").

(** The number of the elements of a list that satisfy a test. *)
Definition count {A : Type} (f : A -> bool) (l : list A) : nat :=
  List.length (List.filter f l).

End Spec.

(* ================================================================== *)
(** * Part II: properties of the program                               *)
(* ================================================================== *)

(** ** Calendar arithmetic *)

Module JsDateFacts.

Import JsDate.

Lemma DayFromYear_succ y : DayFromYear (y + 1) = DayFromYear y + DaysInYear y.
Proof.
  unfold DayFromYear, DaysInYear.
  destruct (Z.eqb_spec (y mod 4) 0), (Z.eqb_spec (y mod 100) 0),
    (Z.eqb_spec (y mod 400) 0); cbn [negb]; Z.div_mod_to_equations; lia.
Qed.

Lemma DaysInYear_cases y : DaysInYear y = 365 \/ DaysInYear y = 366.
Proof.
  unfold DaysInYear.
  destruct (y mod 4 =? 0), (y mod 100 =? 0), (y mod 400 =? 0); cbn; auto.
Qed.

Lemma InLeapYear_cases y : InLeapYear y = 0 \/ InLeapYear y = 1.
Proof. unfold InLeapYear. destruct (DaysInYear_cases y); lia. Qed.

(** The year found contains the day. *)
Lemma YearFromDay_spec n :
  DayFromYear (YearFromDay n) <= n < DayFromYear (YearFromDay n + 1).
Proof.
  unfold DayFromYear, YearFromDay. cbv zeta.
  Z.div_mod_to_equations. lia.
Qed.

Lemma DayFromYear_le y k : 0 <= k -> DayFromYear y <= DayFromYear (y + k).
Proof.
  intros Hk. revert k Hk.
  apply (natlike_ind (fun k => DayFromYear y <= DayFromYear (y + k))).
  - rewrite Z.add_0_r. lia.
  - intros k Hk IH.
    replace (y + Z.succ k) with (y + k + 1) by lia.
    rewrite DayFromYear_succ. destruct (DaysInYear_cases (y + k)); lia.
Qed.

(** A day belongs to one year only. *)
Lemma YearFromDay_unique n y :
  DayFromYear y <= n < DayFromYear (y + 1) -> YearFromDay n = y.
Proof.
  intros [Hlo Hhi]. destruct (YearFromDay_spec n) as [Slo Shi].
  destruct (Z.lt_trichotomy (YearFromDay n) y) as [Hlt | [Heq | Hgt]]; auto.
  - pose proof (DayFromYear_le (YearFromDay n + 1) (y - (YearFromDay n + 1))).
    replace (YearFromDay n + 1 + (y - (YearFromDay n + 1))) with y in * by lia.
    lia.
  - pose proof (DayFromYear_le (y + 1) (YearFromDay n - (y + 1))).
    replace (y + 1 + (YearFromDay n - (y + 1))) with (YearFromDay n) in * by lia.
    lia.
Qed.

Lemma MonthFromDay_range n : 0 <= MonthFromDay n <= 11.
Proof.
  unfold MonthFromDay. cbv zeta.
  repeat match goal with |- context [if ?b then _ else _] => destruct b end; lia.
Qed.

(** From a day to its fields and back. *)
Lemma MakeDay_fields n :
  MakeDay (YearFromDay n) (MonthFromDay n) (DateFromDay n) = n.
Proof.
  pose proof (MonthFromDay_range n) as Hm.
  unfold MakeDay. cbv zeta.
  rewrite Z.div_small, Z.mod_small, Z.add_0_r by lia.
  unfold DateFromDay, DayWithinYear. lia.
Qed.

Lemma MakeDay_date y m d k : MakeDay y m (d + k) = MakeDay y m d + k.
Proof. unfold MakeDay. lia. Qed.

Section Fields.

Variables y m d : Z.
Hypothesis Hm : 0 <= m <= 11.
Hypothesis Hd : 1 <= d <= DateInput.daysIn y (m + 1).

Lemma MakeDay_in_year :
  DayFromYear y <= MakeDay y m d < DayFromYear (y + 1).
Proof using Hm Hd.
  rewrite DayFromYear_succ.
  unfold MakeDay, DateInput.daysIn, InLeapYear in *. cbv zeta.
  rewrite Z.div_small, Z.mod_small, Z.add_0_r by lia.
  replace (m + 1 - 1) with m in Hd by lia.
  destruct (DaysInYear_cases y) as [E | E]; rewrite E in *;
    assert (Hc : m = 0 \/ m = 1 \/ m = 2 \/ m = 3 \/ m = 4 \/ m = 5 \/ m = 6
                 \/ m = 7 \/ m = 8 \/ m = 9 \/ m = 10 \/ m = 11) by lia;
    repeat (destruct Hc as [-> | Hc]); try subst m; cbn in *; lia.
Qed.

Lemma YearFromDay_MakeDay : YearFromDay (MakeDay y m d) = y.
Proof using Hm Hd. apply YearFromDay_unique, MakeDay_in_year. Qed.

Lemma MonthFromDay_MakeDay : MonthFromDay (MakeDay y m d) = m.
Proof using Hm Hd.
  unfold MonthFromDay, DayWithinYear. cbv zeta. rewrite YearFromDay_MakeDay.
  unfold MakeDay, DateInput.daysIn, InLeapYear in *. cbv zeta.
  rewrite Z.div_small, Z.mod_small, Z.add_0_r by lia.
  replace (m + 1 - 1) with m in Hd by lia.
  destruct (DaysInYear_cases y) as [E | E]; rewrite E in *;
    assert (Hc : m = 0 \/ m = 1 \/ m = 2 \/ m = 3 \/ m = 4 \/ m = 5 \/ m = 6
                 \/ m = 7 \/ m = 8 \/ m = 9 \/ m = 10 \/ m = 11) by lia;
    repeat (destruct Hc as [-> | Hc]); try subst m; cbn in *;
    repeat match goal with
           | |- context [?a <? ?b] => destruct (Z.ltb_spec a b); try lia
           end.
Qed.

Lemma DateFromDay_MakeDay : DateFromDay (MakeDay y m d) = d.
Proof using Hm Hd.
  unfold DateFromDay, DayWithinYear.
  rewrite MonthFromDay_MakeDay, YearFromDay_MakeDay.
  unfold MakeDay. cbv zeta.
  rewrite Z.div_small, Z.mod_small, Z.add_0_r by lia. lia.
Qed.

End Fields.

End JsDateFacts.

(** ** Decimal strings *)

Module JsFacts.

Import Js.

Lemma digitValue_digitChar k : 0 <= k <= 9 -> digitValue (digitChar k) = Some k.
Proof.
  intros H.
  assert (Hc : k = 0 \/ k = 1 \/ k = 2 \/ k = 3 \/ k = 4 \/ k = 5 \/ k = 6
               \/ k = 7 \/ k = 8 \/ k = 9) by lia.
  repeat (destruct Hc as [-> | Hc]); try subst k; reflexivity.
Qed.

Lemma decimal_digit fuel n acc :
  0 <= n <= 9 -> decimal fuel n acc = String (digitChar n) acc.
Proof.
  intros H. destruct fuel; cbn [decimal];
    rewrite ?Z.div_small, ?Z.mod_small by lia; reflexivity.
Qed.

Lemma decimal_step fuel n acc :
  10 <= n ->
  decimal (S fuel) n acc = decimal fuel (n / 10) (String (digitChar (n mod 10)) acc).
Proof.
  intros H. cbn [decimal].
  destruct (Z.eqb_spec (n / 10) 0) as [E | E]; [| reflexivity].
  exfalso. Z.div_mod_to_equations. lia.
Qed.

Lemma fuel_of_log2 n k :
  2 ^ Z.of_nat k <= n -> exists f, Z.to_nat (Z.log2 n) = (k + f)%nat.
Proof.
  intros H. exists (Z.to_nat (Z.log2 n) - k)%nat.
  assert (Z.of_nat k <= Z.log2 n).
  { apply Z.log2_le_pow2; [| assumption].
    pose proof (Z.pow_pos_nonneg 2 (Z.of_nat k)). lia. }
  lia.
Qed.

Lemma Number_toString_1 n :
  0 <= n <= 9 -> Number_toString n = String (digitChar n) "".
Proof.
  intros H. unfold Number_toString.
  destruct (Z.ltb_spec n 0); [lia |]. now apply decimal_digit.
Qed.

Lemma Number_toString_2 n :
  10 <= n <= 99 ->
  Number_toString n = String (digitChar (n / 10)) (String (digitChar (n mod 10)) "").
Proof.
  intros H. unfold Number_toString.
  destruct (Z.ltb_spec n 0); [lia |].
  destruct (fuel_of_log2 n 1) as [f ->]; [cbn; lia |].
  cbn [Nat.add]. rewrite decimal_step by lia.
  apply decimal_digit. Z.div_mod_to_equations. lia.
Qed.

Lemma Number_toString_4 n :
  1000 <= n <= 9999 ->
  Number_toString n =
  String (digitChar (n / 1000)) (String (digitChar (n / 100 mod 10))
    (String (digitChar (n / 10 mod 10)) (String (digitChar (n mod 10)) ""))).
Proof.
  intros H. unfold Number_toString.
  destruct (Z.ltb_spec n 0); [lia |].
  destruct (fuel_of_log2 n 3) as [f ->]; [cbn; lia |].
  cbn [Nat.add].
  rewrite decimal_step by lia.
  rewrite decimal_step by (Z.div_mod_to_equations; lia).
  rewrite decimal_step by (Z.div_mod_to_equations; lia).
  rewrite decimal_digit by (Z.div_mod_to_equations; lia).
  rewrite !Z.div_div by lia. reflexivity.
Qed.

(** Two digits, with a leading zero below ten. *)
Lemma pad_2 n :
  0 <= n <= 99 ->
  JsDate.pad 2 n = String (digitChar (n / 10)) (String (digitChar (n mod 10)) "").
Proof.
  intros H. unfold JsDate.pad.
  destruct (Z.le_gt_cases n 9).
  - rewrite Number_toString_1 by lia.
    rewrite Z.div_small, Z.mod_small by lia. reflexivity.
  - rewrite Number_toString_2 by lia. reflexivity.
Qed.

Lemma pad_4 n :
  1000 <= n <= 9999 ->
  JsDate.pad 4 n =
  String (digitChar (n / 1000)) (String (digitChar (n / 100 mod 10))
    (String (digitChar (n / 10 mod 10)) (String (digitChar (n mod 10)) ""))).
Proof.
  intros H. unfold JsDate.pad. rewrite Number_toString_4 by lia. reflexivity.
Qed.

End JsFacts.

(** ** Time values in a zone *)

Module ZoneFacts.

Import JsDate JsDateFacts.

Section Zone.

Variable tz : Z.

Lemma LocalTime_UTC t : LocalTime tz (UTC tz t) = t.
Proof. unfold LocalTime, UTC. lia. Qed.

Lemma Day_MakeDate n w : 0 <= w < msPerDay -> Day (MakeDate n w) = n.
Proof.
  unfold Day, MakeDate, msPerDay. intros H. Z.div_mod_to_equations. lia.
Qed.

Lemma TimeWithinDay_MakeDate n w :
  0 <= w < msPerDay -> TimeWithinDay (MakeDate n w) = w.
Proof.
  unfold TimeWithinDay, MakeDate, msPerDay. intros H.
  Z.div_mod_to_equations. lia.
Qed.

Lemma MakeDate_Day t : MakeDate (Day t) (TimeWithinDay t) = t.
Proof.
  unfold MakeDate, Day, TimeWithinDay, msPerDay. Z.div_mod_to_equations. lia.
Qed.

Lemma Day_midnight n : Day (LocalTime tz (midnight tz n)) = n.
Proof.
  unfold midnight. rewrite LocalTime_UTC. apply Day_MakeDate.
  unfold msPerDay. lia.
Qed.

Lemma TimeWithinDay_midnight n : TimeWithinDay (LocalTime tz (midnight tz n)) = 0.
Proof.
  unfold midnight. rewrite LocalTime_UTC. apply TimeWithinDay_MakeDate.
  unfold msPerDay. lia.
Qed.

Lemma midnight_lt n1 n2 : midnight tz n1 < midnight tz n2 <-> n1 < n2.
Proof. unfold midnight, UTC, MakeDate, msPerDay. lia. Qed.

Lemma midnight_le n1 n2 : midnight tz n1 <= midnight tz n2 <-> n1 <= n2.
Proof. unfold midnight, UTC, MakeDate, msPerDay. lia. Qed.

Lemma newDate_midnight y m d :
  100 <= y -> newDate tz y m d = midnight tz (MakeDay y m d).
Proof.
  intros H. unfold newDate. cbv zeta.
  destruct (Z.leb_spec y 99); [lia |]. rewrite andb_false_r. reflexivity.
Qed.

Lemma setDate_midnight n d :
  setDate tz (midnight tz n) d = midnight tz (n + (d - DateFromDay n)).
Proof.
  unfold setDate, getFullYear, getMonth.
  rewrite TimeWithinDay_midnight, Day_midnight.
  replace d with (DateFromDay n + (d - DateFromDay n)) at 1 by lia.
  rewrite MakeDay_date, MakeDay_fields. unfold midnight. reflexivity.
Qed.

Lemma setMonth_midnight n m :
  setMonth tz (midnight tz n) m =
  midnight tz (MakeDay (YearFromDay n) m (DateFromDay n)).
Proof.
  unfold setMonth, getFullYear, getDate.
  rewrite TimeWithinDay_midnight, Day_midnight. unfold midnight. reflexivity.
Qed.

(** Adding days moves the time value by whole days. *)
Lemma add_day_ms t n : Dayjs.add_day tz t n = t + n * msPerDay.
Proof.
  unfold Dayjs.add_day, Dayjs.date, setDate, getFullYear, getMonth, getDate.
  rewrite MakeDay_date, MakeDay_fields.
  pose proof (MakeDate_Day (LocalTime tz t)) as E.
  unfold UTC, MakeDate in *. unfold LocalTime in *. lia.
Qed.

End Zone.

End ZoneFacts.

(** ** [dayjs] on the values of a date input *)

Module DayjsFacts.

Import JsDate JsDateFacts ZoneFacts.

Lemma daysIn_range y m : 1 <= m <= 12 -> 28 <= DateInput.daysIn y m <= 31.
Proof.
  intros H. unfold DateInput.daysIn.
  assert (Hc : m = 1 \/ m = 2 \/ m = 3 \/ m = 4 \/ m = 5 \/ m = 6 \/ m = 7
               \/ m = 8 \/ m = 9 \/ m = 10 \/ m = 11 \/ m = 12) by lia.
  destruct (InLeapYear_cases y) as [E | E]; rewrite E;
    repeat (destruct Hc as [-> | Hc]); try subst m; cbn; lia.
Qed.

(** A month out of range carries over to the years. *)
Lemma MakeDay_carry y m d : MakeDay y m d = MakeDay (y + m / 12) (m mod 12) d.
Proof.
  unfold MakeDay. cbv zeta.
  pose proof (Z.mod_pos_bound m 12 ltac:(lia)) as Hr.
  rewrite (Z.div_small (m mod 12)), (Z.mod_small (m mod 12)) by lia.
  rewrite Z.add_0_r. reflexivity.
Qed.

(** Day zero of the next month is the last day of the month. *)
Lemma MakeDay_last y m :
  0 <= m <= 11 -> MakeDay y (m + 1) 0 = MakeDay y m (DateInput.daysIn y (m + 1)).
Proof.
  intros H. unfold DateInput.daysIn. replace (m + 1 - 1) with m by lia.
  destruct (Z.eq_dec m 11) as [-> | Hne].
  - unfold MakeDay. cbv zeta.
    change ((11 + 1) / 12) with 1. change ((11 + 1) mod 12) with 0.
    change (11 / 12) with 0. change (11 mod 12) with 11.
    change (11 + 1) with 12. replace (y + 0) with y by lia.
    rewrite DayFromYear_succ. unfold InLeapYear, monthStart. lia.
  - unfold MakeDay. cbv zeta.
    rewrite !Z.div_small, !Z.mod_small by lia.
    replace (y + 0) with y by lia. lia.
Qed.

Section Zone.

Variable tz : Z.

Section OnDay.

(** A day of the calendar, the month counted from 0. *)
Variables y m d : Z.
Hypothesis Hy : 100 <= y.
Hypothesis Hm : 0 <= m <= 11.
Hypothesis Hd : 1 <= d <= DateInput.daysIn y (m + 1).

Let t : Z := midnight tz (MakeDay y m d).

Lemma year_midnight : Dayjs.year tz t = y.
Proof using Hm Hd.
  unfold Dayjs.year, getFullYear, t. rewrite Day_midnight.
  now apply YearFromDay_MakeDay.
Qed.

Lemma month_midnight : Dayjs.month tz t = m.
Proof using Hm Hd.
  unfold Dayjs.month, getMonth, t. rewrite Day_midnight.
  now apply MonthFromDay_MakeDay.
Qed.

Lemma date_midnight : Dayjs.date tz t = d.
Proof using Hm Hd.
  unfold Dayjs.date, getDate, t. rewrite Day_midnight.
  now apply DateFromDay_MakeDay.
Qed.

Lemma daysInMonth_midnight : Dayjs.daysInMonth tz t = DateInput.daysIn y (m + 1).
Proof using Hy Hm Hd.
  unfold Dayjs.daysInMonth. rewrite year_midnight, month_midnight.
  rewrite newDate_midnight by lia.
  unfold Dayjs.endOf_day, setHours. rewrite Day_midnight.
  unfold Dayjs.date, getDate. rewrite LocalTime_UTC.
  rewrite Day_MakeDate by (unfold msPerDay; lia).
  rewrite MakeDay_last by lia.
  apply DateFromDay_MakeDay; [lia |].
  pose proof (daysIn_range y (m + 1)). lia.
Qed.

Lemma setDate_day d' :
  setDate tz t d' = midnight tz (MakeDay y m d').
Proof using Hm Hd.
  unfold t. rewrite setDate_midnight.
  rewrite DateFromDay_MakeDay by assumption.
  rewrite <- MakeDay_date. f_equal. f_equal. lia.
Qed.

End OnDay.

(** [set('month', arg)] on a day of the calendar: the same day of the target
    month, or its last day. *)
Lemma set_month_midnight y m d arg :
  0 <= m <= 11 -> 1 <= d <= DateInput.daysIn y (m + 1) ->
  100 <= y + arg / 12 ->
  Dayjs.set_month tz (midnight tz (MakeDay y m d)) arg =
  midnight tz (MakeDay (y + arg / 12) (arg mod 12)
                 (Z.min d (DateInput.daysIn (y + arg / 12) (arg mod 12 + 1)))).
Proof.
  intros Hm Hd Hy.
  pose proof (Z.mod_pos_bound arg 12 ltac:(lia)) as Hr.
  pose proof (daysIn_range y (m + 1) ltac:(lia)) as Hdim.
  pose proof (daysIn_range (y + arg / 12) (arg mod 12 + 1) ltac:(lia)) as Hdim'.
  unfold Dayjs.set_month. cbv zeta.
  rewrite date_midnight by assumption.
  rewrite setDate_day by assumption.
  rewrite setMonth_midnight.
  rewrite YearFromDay_MakeDay, DateFromDay_MakeDay by lia.
  rewrite (MakeDay_carry y arg 1).
  rewrite daysInMonth_midnight by lia.
  apply setDate_day; lia.
Qed.

(** What the parser gives on the value of a date input. *)
Lemma parse_value d :
  DateInput.wellFormed d ->
  Dayjs.parse tz (DateInput.value d) = Some (DateInput.timeValue tz d).
Proof.
  intros (Hy & Hm & Hd).
  pose proof (daysIn_range (DateInput.year d) _ Hm) as Hdim.
  unfold DateInput.value.
  rewrite JsFacts.pad_4, !JsFacts.pad_2 by lia.
  cbn [append Dayjs.parse].
  rewrite !JsFacts.digitValue_digitChar by (Z.div_mod_to_equations; lia).
  unfold DateInput.timeValue, DateInput.dayNumber.
  rewrite <- newDate_midnight by lia.
  f_equal. f_equal; Z.div_mod_to_equations; lia.
Qed.

End Zone.

End DayjsFacts.

(** ** The OPEC rule of the controller *)

Module ControllerFacts.

Import FinancingForm.

Lemma includes_In arr x : Js.Array_includes arr x = true <-> In x arr.
Proof.
  unfold Js.Array_includes. rewrite existsb_exists. split.
  - intros (y & Hy & E). apply String.eqb_eq in E. now subst.
  - intros H. exists x. split; [assumption | apply String.eqb_refl].
Qed.

Lemma isOpec_spec c :
  Js.Array_includes Constants.OPEC_COUNTRIES c = true <-> Spec.inOpecSet c.
Proof.
  rewrite includes_In. unfold Constants.OPEC_COUNTRIES, Spec.inOpecSet.
  cbn [In]. intuition congruence.
Qed.

Lemma changeCountry_opec c st tr :
  Js.Array_includes Constants.OPEC_COUNTRIES c = true ->
  changeCountry c st tr =
  (tt, mkState (Values.set_currency "USD" (Values.set_country c (values st)))
               true (isSubmitting st), tr).
Proof.
  intros H. unfold changeCountry, countryEffect, bind, input_country,
    watch_country, setIsOpec, setValue_currency.
  cbn [values isOpec isSubmitting Values.country Values.set_country].
  rewrite H. reflexivity.
Qed.

Lemma changeCountry_other c st tr :
  Js.Array_includes Constants.OPEC_COUNTRIES c = false ->
  changeCountry c st tr =
  (tt, mkState (Values.set_country c (values st)) false (isSubmitting st), tr).
Proof.
  intros H. unfold changeCountry, countryEffect, bind, input_country,
    watch_country, setIsOpec, ret.
  cbn [values isOpec isSubmitting Values.country Values.set_country].
  rewrite H. reflexivity.
Qed.

End ControllerFacts.

(** ** The tests on strings *)

Module SchemaFacts.

Lemma inSet_upper c : Yup.inSet (Yup.Range "A" "Z") c = true <-> Spec.isUpper c.
Proof.
  unfold Yup.inSet, Spec.isUpper.
  change (nat_of_ascii "A") with 65%nat. change (nat_of_ascii "Z") with 90%nat.
  rewrite andb_true_iff, !Nat.leb_le. reflexivity.
Qed.

Lemma inSet_digit19 c : Yup.inSet (Yup.Range "1" "9") c = true <-> Spec.isDigit19 c.
Proof.
  unfold Yup.inSet, Spec.isDigit19.
  change (nat_of_ascii "1") with 49%nat. change (nat_of_ascii "9") with 57%nat.
  rewrite andb_true_iff, !Nat.leb_le. reflexivity.
Qed.

Lemma inSet_lit x c : Yup.inSet (Yup.Lit x) c = true <-> c = x.
Proof. apply Ascii.eqb_eq. Qed.

(** One more repetition consumes one character of the class. *)
Lemma matchRepeat_S cs k s r :
  Yup.matchRepeat cs (S k) s = Some r <->
  exists c s', s = String c s' /\ Yup.inSet cs c = true
               /\ Yup.matchRepeat cs k s' = Some r.
Proof.
  cbn [Yup.matchRepeat]. split.
  - destruct s as [| c s']; [discriminate |].
    destruct (Yup.inSet cs c) eqn:E; [| discriminate].
    intros H. exists c, s'. auto.
  - intros (c & s' & -> & E & H). now rewrite E.
Qed.

Lemma matchRepeat_O cs s r : Yup.matchRepeat cs 0 s = Some r <-> r = s.
Proof. cbn. split; [now intros [= ->] | now intros ->]. Qed.

Lemma search_nil s : Yup.search [] s = true <-> s = "".
Proof. destruct s; cbn; split; congruence. Qed.

Lemma search_cons cs n re s :
  Yup.search ((cs, n) :: re) s = true <->
  exists r, Yup.matchRepeat cs n s = Some r /\ Yup.search re r = true.
Proof.
  cbn [Yup.search]. destruct (Yup.matchRepeat cs n s) as [r |]; split.
  - intros H. now exists r.
  - now intros (r' & [= ->] & H).
  - discriminate.
  - now intros (r' & [=] & _).
Qed.

Ltac consume H :=
  apply matchRepeat_S in H;
  let c := fresh "c" in
  let E := fresh "E" in
  destruct H as (c & ? & -> & E & H).

(** The expression of the schema accepts the language of the pattern. *)
Lemma search_projectCode s :
  Yup.search Constants.projectCodeRegex s = true <-> Spec.matchesProjectCode s.
Proof.
  unfold Constants.projectCodeRegex, Spec.matchesProjectCode. split.
  - intros H.
    apply search_cons in H. destruct H as (r1 & H1 & H).
    apply search_cons in H. destruct H as (r2 & H2 & H).
    apply search_cons in H. destruct H as (r3 & H3 & H).
    apply search_nil in H. subst r3.
    do 4 consume H1. apply matchRepeat_O in H1. subst r1.
    consume H2. apply matchRepeat_O in H2. subst r2.
    do 4 consume H3. apply matchRepeat_O in H3. subst.
    rewrite inSet_upper in *. rewrite inSet_digit19 in *.
    match goal with H : Yup.inSet (Yup.Lit _) _ = true |- _ =>
      apply inSet_lit in H; subst end.
    do 8 eexists. split; [reflexivity |]. tauto.
  - intros (a & b & c & d & e & f & g & h & -> & Ha & Hb & Hc & Hd
            & He & Hf & Hg & Hh).
    apply inSet_upper in Ha, Hb, Hc, Hd. apply inSet_digit19 in He, Hf, Hg, Hh.
    pose proof (proj2 (inSet_lit "-" "-") eq_refl) as Hy.
    cbn [Yup.search Yup.matchRepeat]. rewrite Ha, Hb, Hc, Hd.
    cbn [Yup.search Yup.matchRepeat]. rewrite Hy.
    cbn [Yup.search Yup.matchRepeat]. rewrite He, Hf, Hg, Hh. reflexivity.
Qed.

Lemma projectCode_error s :
  Yup.firstError Constants.projectCode_tests s =
  if Yup.search Constants.projectCodeRegex s then None else Some Spec.FormatInvalid.
Proof.
  unfold Constants.projectCode_tests, Yup.firstError, Yup.matches, Yup.required.
  destruct (Yup.search Constants.projectCodeRegex s) eqn:E; [| reflexivity].
  apply search_projectCode in E.
  destruct E as (a & b & c & d & e & f & g & h & -> & _). reflexivity.
Qed.

Lemma upper_not_hyphen c : Spec.isUpper c -> Ascii.eqb c "-" = false.
Proof.
  intros H. destruct (Ascii.eqb_spec c "-") as [-> | _]; [| reflexivity].
  unfold Spec.isUpper in H. cbn in H. lia.
Qed.

Lemma upper_not_lower c : Spec.isUpper c -> Spec.isLower c = false.
Proof.
  unfold Spec.isUpper, Spec.isLower. intros H.
  destruct (Nat.leb_spec 97 (nat_of_ascii c)); [lia | reflexivity].
Qed.

Lemma digit19_not_lower c : Spec.isDigit19 c -> Spec.isLower c = false.
Proof.
  unfold Spec.isDigit19, Spec.isLower. intros H.
  destruct (Nat.leb_spec 97 (nat_of_ascii c)); [lia | reflexivity].
Qed.

Lemma digit19_not_zero c : Spec.isDigit19 c -> Ascii.eqb c "0" = false.
Proof.
  intros H. destruct (Ascii.eqb_spec c "0") as [-> | _]; [| reflexivity].
  unfold Spec.isDigit19 in H. cbn in H. lia.
Qed.

(** The four kinds of malformed codes are outside the pattern. *)
Lemma malformed_not_matching s :
  Spec.hasLowercase s || Spec.zeroInNumericGroup s
  || Spec.wrongLengthSegment s || Spec.missingHyphen s = true ->
  ~ Spec.matchesProjectCode s.
Proof.
  intros H (a & b & c & d & e & f & g & h & -> & Ha & Hb & Hc & Hd
            & He & Hf & Hg & Hh).
  unfold Spec.hasLowercase, Spec.zeroInNumericGroup, Spec.wrongLengthSegment,
    Spec.missingHyphen in H.
  cbn [Spec.contains Spec.afterHyphen Js.split_first] in H.
  rewrite (upper_not_hyphen a Ha), (upper_not_hyphen b Hb),
    (upper_not_hyphen c Hc), (upper_not_hyphen d Hd) in H.
  rewrite (upper_not_lower a Ha), (upper_not_lower b Hb),
    (upper_not_lower c Hc), (upper_not_lower d Hd) in H.
  rewrite (digit19_not_lower e He), (digit19_not_lower f Hf),
    (digit19_not_lower g Hg), (digit19_not_lower h Hh) in H.
  rewrite Ascii.eqb_refl in H.
  cbn [Spec.contains] in H.
  rewrite (digit19_not_zero e He), (digit19_not_zero f Hf),
    (digit19_not_zero g Hg), (digit19_not_zero h Hh) in H.
  cbn in H. discriminate H.
Qed.

End SchemaFacts.

(** ** The tests on dates *)

Module DateRuleFacts.

Import JsDate JsDateFacts ZoneFacts DayjsFacts.

Lemma Qltb_lt x y : Js.Qltb x y = true <-> (x < y)%Q.
Proof.
  unfold Js.Qltb. rewrite negb_true_iff. split.
  - intros H. apply Qnot_le_lt. intros Hle.
    apply Qle_bool_iff in Hle. congruence.
  - intros H. destruct (Qle_bool y x) eqn:E; [| reflexivity].
    apply Qle_bool_iff in E. exfalso. exact (Qlt_not_le _ _ H E).
Qed.

Lemma Qltb_ge x y : Js.Qltb x y = false <-> (y <= x)%Q.
Proof.
  unfold Js.Qltb. rewrite negb_false_iff. apply Qle_bool_iff.
Qed.

(** The value of a date input is never empty. *)
Lemma value_not_empty d :
  DateInput.wellFormed d -> String.eqb (DateInput.value d) "" = false.
Proof.
  intros (Hy & _). unfold DateInput.value.
  rewrite JsFacts.pad_4 by lia. reflexivity.
Qed.

Lemma value_required d message :
  DateInput.wellFormed d -> Yup.required message (DateInput.value d) = None.
Proof.
  intros (Hy & _). unfold DateInput.value, Yup.required.
  rewrite JsFacts.pad_4 by lia. reflexivity.
Qed.

Section Zone.

Variable tz : Z.

(** A day is the same as, or after, the day of an instant when the instant
    is not past the end of the day. *)
Lemma isSameOrAfter_day_midnight n that :
  Dayjs.isSameOrAfter_day tz (midnight tz n) that = (Day (LocalTime tz that) <=? n).
Proof.
  unfold Dayjs.isSameOrAfter_day, Dayjs.isSame_day, Dayjs.isAfter_day,
    Dayjs.startOf_day, Dayjs.endOf_day, setHours.
  rewrite Day_midnight.
  unfold UTC, MakeDate, Day, LocalTime, msPerDay.
  destruct (Z.leb_spec ((that + LocalTZA tz) / 86400000) n);
    repeat match goal with
           | |- context [?a <=? ?b] => destruct (Z.leb_spec a b)
           | |- context [?a <? ?b] => destruct (Z.ltb_spec a b)
           end; cbn; try reflexivity; exfalso; Z.div_mod_to_equations; lia.
Qed.

Lemma Day_add_days t n : Day (t + n * msPerDay) = Day t + n.
Proof. unfold Day, msPerDay. Z.div_mod_to_equations. lia. Qed.

(** The test [min-start-date] on the value of a date input. *)
Lemma min_start_date_value now d :
  DateInput.wellFormed d ->
  Constants.min_start_date tz now (DateInput.value d) =
  if Day (LocalTime tz now) + 15 <=? DateInput.dayNumber d
  then Yup.ReturnTrue else Yup.ReturnFalse.
Proof.
  intros H. unfold Constants.min_start_date.
  rewrite value_not_empty, parse_value by assumption.
  cbv zeta. unfold Dayjs.compare2, DateInput.timeValue.
  rewrite isSameOrAfter_day_midnight, add_day_ms.
  unfold LocalTime.
  replace (now + Constants.MIN_DAYS_FROM_NOW * msPerDay + LocalTZA tz)
    with (now + LocalTZA tz + 15 * msPerDay) by (unfold Constants.MIN_DAYS_FROM_NOW; lia).
  rewrite Day_add_days. reflexivity.
Qed.

Lemma startDate_error now d :
  DateInput.wellFormed d ->
  Yup.firstError (Constants.startDate_tests tz now) (DateInput.value d) =
  if Day (LocalTime tz now) + 15 <=? DateInput.dayNumber d
  then None else Some "Start date must be at least 15 days from today".
Proof.
  intros H. unfold Constants.startDate_tests. cbn [Yup.firstError].
  rewrite value_required by assumption.
  unfold Yup.test. rewrite min_start_date_value by assumption.
  destruct (_ <=? _); reflexivity.
Qed.

(** The test [validity-period] on the values of two date inputs. *)
Lemma validity_period_value parent s e :
  DateInput.wellFormed s -> DateInput.wellFormed e ->
  Values.startDate parent = DateInput.value s ->
  Constants.validity_period tz parent (DateInput.value e) =
  let years := Constants.calculateValidityPeriod tz (DateInput.value s)
                                                 (DateInput.value e) in
  if DateInput.dayNumber e <=? DateInput.dayNumber s
  then Yup.CreateError "End date must be after start date"
  else if Js.Qltb years 1
  then Yup.CreateError "Validity period must be at least 1 year"
  else if Js.Qltb 3 years
  then Yup.CreateError "Validity period cannot exceed 3 years"
  else Yup.ReturnTrue.
Proof.
  intros Hs He Hp. unfold Constants.validity_period. cbv zeta.
  rewrite Hp, !value_not_empty, !parse_value by assumption.
  unfold Dayjs.compare2, Dayjs.isBefore, Dayjs.isSame, DateInput.timeValue.
  assert (Hcmp : (midnight tz (DateInput.dayNumber e) <? midnight tz (DateInput.dayNumber s))
                 || (midnight tz (DateInput.dayNumber e) <=? midnight tz (DateInput.dayNumber s))
                    && (midnight tz (DateInput.dayNumber s) <=? midnight tz (DateInput.dayNumber e))
                 = (DateInput.dayNumber e <=? DateInput.dayNumber s)).
  { pose proof (midnight_lt tz (DateInput.dayNumber e) (DateInput.dayNumber s)).
    pose proof (midnight_le tz (DateInput.dayNumber e) (DateInput.dayNumber s)).
    pose proof (midnight_le tz (DateInput.dayNumber s) (DateInput.dayNumber e)).
    repeat match goal with
           | |- context [?a <=? ?b] => destruct (Z.leb_spec a b)
           | |- context [?a <? ?b] => destruct (Z.ltb_spec a b)
           end; cbn; try reflexivity; lia. }
  rewrite Hcmp. reflexivity.
Qed.

Lemma endDate_error parent s e :
  DateInput.wellFormed s -> DateInput.wellFormed e ->
  Values.startDate parent = DateInput.value s ->
  Yup.firstError (Constants.endDate_tests tz parent) (DateInput.value e) = None
  <->
  DateInput.dayNumber s < DateInput.dayNumber e
  /\ (1 <= Constants.calculateValidityPeriod tz (DateInput.value s) (DateInput.value e) <= 3)%Q.
Proof.
  intros Hs He Hp. unfold Constants.endDate_tests. cbn [Yup.firstError].
  rewrite value_required by assumption.
  unfold Yup.test. rewrite (validity_period_value parent s e) by assumption.
  cbv zeta.
  destruct (Z.leb_spec (DateInput.dayNumber e) (DateInput.dayNumber s)).
  { split; [discriminate | lia]. }
  destruct (Js.Qltb _ 1) eqn:E1.
  { apply Qltb_lt in E1. split; [discriminate |].
    intros (_ & Hge & _). exfalso. exact (Qlt_not_le _ _ E1 Hge). }
  destruct (Js.Qltb 3 _) eqn:E3.
  { apply Qltb_lt in E3. split; [discriminate |].
    intros (_ & _ & Hle). exfalso. exact (Qlt_not_le _ _ E3 Hle). }
  apply Qltb_ge in E1, E3. split; [intros _ | reflexivity]. auto.
Qed.

End Zone.

End DateRuleFacts.

(** ** The difference in years *)

Module DiffFacts.

Import JsDate JsDateFacts ZoneFacts DayjsFacts.

Section Zone.

Variable tz : Z.

Section Fields.

Variable d : DateInput.t.
Hypothesis Hd : DateInput.wellFormed d.

Lemma year_value : Dayjs.year tz (DateInput.timeValue tz d) = DateInput.year d.
Proof using Hd.
  destruct Hd as (Hy & Hm & Hday).
  apply year_midnight; [lia |].
  now replace (DateInput.month d - 1 + 1) with (DateInput.month d) by lia.
Qed.

Lemma month_value : Dayjs.month tz (DateInput.timeValue tz d) = DateInput.month d - 1.
Proof using Hd.
  destruct Hd as (Hy & Hm & Hday).
  apply month_midnight; [lia |].
  now replace (DateInput.month d - 1 + 1) with (DateInput.month d) by lia.
Qed.

Lemma date_value : Dayjs.date tz (DateInput.timeValue tz d) = DateInput.day d.
Proof using Hd.
  destruct Hd as (Hy & Hm & Hday).
  apply date_midnight; [lia |].
  now replace (DateInput.month d - 1 + 1) with (DateInput.month d) by lia.
Qed.

End Fields.

(** Moving a date by whole months to a month in which its day exists. *)
Lemma add_month_same_day a b :
  DateInput.wellFormed a -> DateInput.wellFormed b ->
  DateInput.day a = DateInput.day b ->
  Dayjs.add_month tz (DateInput.timeValue tz a)
    ((DateInput.year b - DateInput.year a) * 12
     + (DateInput.month b - 1 - (DateInput.month a - 1)))
  = DateInput.timeValue tz b.
Proof.
  intros Ha Hb Hday. unfold Dayjs.add_month.
  rewrite month_value by assumption.
  destruct Ha as (Hya & Hma & Hda). destruct Hb as (Hyb & Hmb & Hdb).
  set (arg := DateInput.month a - 1
              + ((DateInput.year b - DateInput.year a) * 12
                 + (DateInput.month b - 1 - (DateInput.month a - 1)))).
  assert (Hq : arg / 12 = DateInput.year b - DateInput.year a)
    by (subst arg; Z.div_mod_to_equations; lia).
  assert (Hr : arg mod 12 = DateInput.month b - 1)
    by (subst arg; Z.div_mod_to_equations; lia).
  unfold DateInput.timeValue, DateInput.dayNumber.
  rewrite set_month_midnight.
  - rewrite Hq, Hr.
    replace (DateInput.year a + (DateInput.year b - DateInput.year a))
      with (DateInput.year b) by lia.
    replace (DateInput.month b - 1 + 1) with (DateInput.month b) by lia.
    rewrite Hday, Z.min_l by lia. reflexivity.
  - lia.
  - now replace (DateInput.month a - 1 + 1) with (DateInput.month a) by lia.
  - rewrite Hq. lia.
Qed.

Lemma Qopp_plus_zero_mult (w q : Q) : (- (w + 0 * q) == - w)%Q.
Proof. ring. Qed.

(** Between two dates on the same day of the month [monthDiff] counts the
    months of the calendar. *)
Lemma monthDiff_same_day s e :
  DateInput.wellFormed s -> DateInput.wellFormed e ->
  DateInput.day s = DateInput.day e ->
  (Dayjs.monthDiff tz (DateInput.timeValue tz e) (DateInput.timeValue tz s)
   == inject_Z ((DateInput.year e - DateInput.year s) * 12
                + (DateInput.month e - DateInput.month s)))%Q.
Proof.
  intros Hs He Hday. unfold Dayjs.monthDiff.
  rewrite !date_value by assumption.
  destruct (Z.ltb_spec (DateInput.day e) (DateInput.day s)); [lia |].
  unfold Dayjs.monthDiff_aligned. cbv zeta.
  rewrite !year_value, !month_value by assumption.
  rewrite (add_month_same_day e s) by auto.
  rewrite Z.sub_diag. cbn [Z.ltb Z.compare].
  replace ((DateInput.year e - DateInput.year s) * 12
           + (DateInput.month e - DateInput.month s))
    with (- ((DateInput.year s - DateInput.year e) * 12
             + (DateInput.month s - 1 - (DateInput.month e - 1)))) by lia.
  rewrite inject_Z_opp. apply Qopp_plus_zero_mult.
Qed.

Lemma diff_year_same_day s e :
  DateInput.wellFormed s -> DateInput.wellFormed e ->
  DateInput.day s = DateInput.day e ->
  (Constants.calculateValidityPeriod tz (DateInput.value s) (DateInput.value e)
   == inject_Z ((DateInput.year e - DateInput.year s) * 12
                + (DateInput.month e - DateInput.month s)) / inject_Z 12)%Q.
Proof.
  intros Hs He Hday. unfold Constants.calculateValidityPeriod. cbv zeta.
  rewrite !parse_value by assumption. unfold Dayjs.diff_year.
  rewrite monthDiff_same_day by assumption. reflexivity.
Qed.

End Zone.

End DiffFacts.

Module RoundFacts.



End RoundFacts.

(** ** Anniversaries of the start date *)

Module AnniversaryFacts.

Import JsDate JsDateFacts DayjsFacts.

Lemma dayNumber_in_year d :
  DateInput.wellFormed d ->
  DayFromYear (DateInput.year d) <= DateInput.dayNumber d
  < DayFromYear (DateInput.year d + 1).
Proof.
  intros (Hy & Hm & Hd). unfold DateInput.dayNumber.
  apply MakeDay_in_year; [lia |].
  now replace (DateInput.month d - 1 + 1) with (DateInput.month d) by lia.
Qed.

Lemma dayNumber_lt_of_year s e :
  DateInput.wellFormed s -> DateInput.wellFormed e ->
  DateInput.year s < DateInput.year e ->
  DateInput.dayNumber s < DateInput.dayNumber e.
Proof.
  intros Hs He Hlt.
  pose proof (dayNumber_in_year s Hs). pose proof (dayNumber_in_year e He).
  pose proof (DayFromYear_le (DateInput.year s + 1)
                (DateInput.year e - (DateInput.year s + 1)) ltac:(lia)) as Hmono.
  replace (DateInput.year s + 1 + (DateInput.year e - (DateInput.year s + 1)))
    with (DateInput.year e) in Hmono by lia.
  lia.
Qed.

(** On the same day of the same month [n] years after the start, the end
    date passes exactly for [n] from 1 to 3. *)
Lemma anniversary_window tz parent s e :
  DateInput.wellFormed s -> DateInput.wellFormed e ->
  Values.startDate parent = DateInput.value s ->
  DateInput.month s = DateInput.month e ->
  DateInput.day s = DateInput.day e ->
  Yup.firstError (Constants.endDate_tests tz parent) (DateInput.value e) = None
  <-> 1 <= DateInput.year e - DateInput.year s <= 3.
Proof.
  intros Hs He Hp Hm Hd.
  rewrite (DateRuleFacts.endDate_error tz parent s e Hs He Hp).
  rewrite (DiffFacts.diff_year_same_day tz s e Hs He Hd).
  rewrite Hm, Z.sub_diag, Z.add_0_r.
  assert (E : (inject_Z ((DateInput.year e - DateInput.year s) * 12) / inject_Z 12
               == inject_Z (DateInput.year e - DateInput.year s))%Q)
    by (rewrite inject_Z_mult; field).
  rewrite E. change 1%Q with (inject_Z 1). change 3%Q with (inject_Z 3).
  rewrite <- !Zle_Qle. split.
  - tauto.
  - intros H. split; [| assumption].
    apply dayNumber_lt_of_year; [assumption | assumption | lia].
Qed.

End AnniversaryFacts.

(** ** The two computations of the minimum start date *)

Module MinStartDateFacts.

Import JsDate ZoneFacts.

Lemma append_assoc (a b c : string) : (a ++ b) ++ c = a ++ (b ++ c).
Proof. induction a as [| x a IH]; cbn; [reflexivity | now rewrite IH]. Qed.

Lemma contains_app p a b :
  Spec.contains p (a ++ b) = Spec.contains p a || Spec.contains p b.
Proof.
  induction a as [| x a IH]; cbn; [reflexivity |].
  now rewrite IH, orb_assoc.
Qed.

Lemma split_first_app a b :
  Spec.contains Spec.isT a = false -> Js.split_first "T" (a ++ String "T" b) = a.
Proof.
  induction a as [| x a IH]; cbn; [reflexivity |].
  intros H. apply orb_false_elim in H. destruct H as [Hx Ha].
  unfold Spec.isT in Hx. rewrite Hx, IH by assumption. reflexivity.
Qed.

Lemma digitChar_not_T k : 0 <= k <= 9 -> Spec.isT (Js.digitChar k) = false.
Proof.
  intros H.
  assert (Hc : k = 0 \/ k = 1 \/ k = 2 \/ k = 3 \/ k = 4 \/ k = 5 \/ k = 6
               \/ k = 7 \/ k = 8 \/ k = 9) by lia.
  repeat (destruct Hc as [-> | Hc]); try subst k; reflexivity.
Qed.

Lemma decimal_no_T fuel : forall n acc,
  Spec.contains Spec.isT acc = false ->
  Spec.contains Spec.isT (Js.decimal fuel n acc) = false.
Proof.
  induction fuel as [| f IH]; intros n acc Hacc; cbn [Js.decimal];
    pose proof (Z.mod_pos_bound n 10 ltac:(lia)) as Hr;
    assert (Hd : Spec.contains Spec.isT (String (Js.digitChar (n mod 10)) acc) = false)
      by (cbn; rewrite digitChar_not_T by lia; assumption).
  - exact Hd.
  - destruct (n / 10 =? 0); [exact Hd | now apply IH].
Qed.

Lemma Number_toString_no_T n : Spec.contains Spec.isT (Js.Number_toString n) = false.
Proof.
  unfold Js.Number_toString. destruct (n <? 0).
  - cbn [Spec.contains]. now rewrite decimal_no_T.
  - now apply decimal_no_T.
Qed.

Lemma pad_no_T len n : Spec.contains Spec.isT (pad len n) = false.
Proof.
  unfold pad, Js.padStart. rewrite contains_app, Number_toString_no_T, orb_false_r.
  induction (len - String.length (Js.Number_toString n))%nat; cbn; auto.
Qed.

(** The date part of [toISOString()]. *)
Lemma toISOString_date t :
  0 <= YearFromDay (Day t) <= 9999 ->
  Js.split_first "T" (toISOString t) =
  pad 4 (YearFromDay (Day t)) ++ "-" ++ pad 2 (MonthFromDay (Day t) + 1)
    ++ "-" ++ pad 2 (DateFromDay (Day t)).
Proof.
  intros Hy. unfold toISOString. cbv zeta.
  destruct (Z.leb_spec 0 (YearFromDay (Day t))); [| lia].
  destruct (Z.leb_spec (YearFromDay (Day t)) 9999); [| lia].
  cbn [andb].
  set (rest := pad 2 (TimeWithinDay t / 3600000) ++ _).
  change ("T" ++ rest) with (String "T" rest).
  rewrite <- !append_assoc. apply split_first_app.
  rewrite !contains_app, !pad_no_T. reflexivity.
Qed.

(** The computation with [dayjs] is the arithmetic one on the local
    clock. *)
Lemma getMinStartDate_local tz now :
  0 <= YearFromDay (Day (LocalTime tz now + 1296000000)) <= 9999 ->
  Constants.getMinStartDate tz now = Earlier.minStartDate (LocalTime tz now).
Proof.
  intros Hy. unfold Earlier.minStartDate, Constants.getMinStartDate. cbv zeta.
  rewrite toISOString_date by assumption.
  rewrite add_day_ms. unfold Dayjs.format, Dayjs.year, Dayjs.month, Dayjs.date,
    getFullYear, getMonth, getDate.
  replace (LocalTime tz (now + Constants.MIN_DAYS_FROM_NOW * msPerDay))
    with (LocalTime tz now + 1296000000)
    by (unfold LocalTime, Constants.MIN_DAYS_FROM_NOW, msPerDay; lia).
  reflexivity.
Qed.

(** In a zone without offset, the two computations agree at every instant
    of the years 0 to 9999. *)
Lemma minStartDate_agree_in_utc now :
  0 <= YearFromDay (Day (now + 1296000000)) <= 9999 ->
  Earlier.minStartDate now = Constants.getMinStartDate 0 now.
Proof.
  intros Hy.
  assert (E : LocalTime 0 now = now) by (unfold LocalTime, LocalTZA; lia).
  rewrite getMinStartDate_local; rewrite E; [reflexivity | assumption].
Qed.

End MinStartDateFacts.

(** ** Months and day numbers *)

Module MonthFacts.

Import JsDate JsDateFacts ZoneFacts DayjsFacts.

(** The months of [MakeDay] count on from the years. *)
Lemma MakeDay_index y m d : MakeDay y m d = MakeDay 0 (12 * y + m) d.
Proof.
  rewrite (MakeDay_carry y m d), (MakeDay_carry 0 (12 * y + m) d).
  replace (12 * y + m) with (m + y * 12) by lia.
  rewrite Z.div_add, Z.mod_add by lia.
  f_equal. lia.
Qed.

Lemma length_range i : 28 <= Months.length i <= 31.
Proof.
  unfold Months.length. apply daysIn_range.
  pose proof (Z.mod_pos_bound i 12 ltac:(lia)). lia.
Qed.

Lemma firstDay_succ i : Months.firstDay (i + 1) = Months.firstDay i + Months.length i.
Proof.
  unfold Months.firstDay, Months.length.
  pose proof (Z.mod_pos_bound i 12 ltac:(lia)) as Hr.
  rewrite (MakeDay_carry 0 i 1). cbn [Z.add].
  replace (MakeDay 0 (i + 1) 1) with (MakeDay (i / 12) (i mod 12 + 1) 0 + 1).
  - rewrite MakeDay_last by lia.
    replace 1 with (0 + 1) at 3 by lia. rewrite MakeDay_date.
    replace (DateInput.daysIn (i / 12) (i mod 12 + 1))
      with (0 + DateInput.daysIn (i / 12) (i mod 12 + 1)) at 1 by lia.
    rewrite MakeDay_date. lia.
  - rewrite (MakeDay_index (i / 12) (i mod 12 + 1) 0).
    replace (12 * (i / 12) + (i mod 12 + 1)) with (i + 1)
      by (pose proof (Z.div_mod i 12 ltac:(lia)); lia).
    replace 1 with (0 + 1) at 4 by lia. now rewrite MakeDay_date.
Qed.

Lemma firstDay_le i k : 0 <= k -> Months.firstDay i + 28 * k <= Months.firstDay (i + k).
Proof.
  intros Hk. revert k Hk.
  apply (natlike_ind (fun k => Months.firstDay i + 28 * k <= Months.firstDay (i + k))).
  - replace (i + 0) with i by lia. lia.
  - intros k Hk IH.
    replace (i + Z.succ k) with (i + k + 1) by lia.
    rewrite firstDay_succ. pose proof (length_range (i + k)). lia.
Qed.

Lemma firstDay_lt i j : i < j -> Months.firstDay (i + 1) <= Months.firstDay j.
Proof.
  intros H. pose proof (firstDay_le (i + 1) (j - (i + 1)) ltac:(lia)) as Hl.
  replace (i + 1 + (j - (i + 1))) with j in Hl by lia. lia.
Qed.

Lemma index_div d :
  1 <= DateInput.month d <= 12 ->
  Months.index d / 12 = DateInput.year d
  /\ Months.index d mod 12 + 1 = DateInput.month d.
Proof.
  intros H. unfold Months.index. Z.div_mod_to_equations. lia.
Qed.

Lemma length_index d :
  1 <= DateInput.month d <= 12 ->
  Months.length (Months.index d) = DateInput.daysIn (DateInput.year d) (DateInput.month d).
Proof.
  intros H. unfold Months.length. destruct (index_div d H) as [-> ->]. reflexivity.
Qed.

(** The day number of a date: the first day of its month and its day. *)
Lemma dayNumber_firstDay d :
  Months.firstDay (Months.index d) + DateInput.day d - 1 = DateInput.dayNumber d.
Proof.
  unfold Months.firstDay, Months.index, DateInput.dayNumber.
  rewrite <- MakeDay_index.
  replace (DateInput.day d) with (1 + (DateInput.day d - 1)) at 2 by lia.
  rewrite MakeDay_date. lia.
Qed.

Lemma index_shift d k : Months.index (Months.shift d k) = Months.index d + k.
Proof.
  unfold Months.shift. cbv zeta. unfold Months.index at 1.
  cbn [DateInput.year DateInput.month].
  pose proof (Z.div_mod (Months.index d + k) 12 ltac:(lia)). lia.
Qed.

Lemma dayNumber_shift d k :
  DateInput.dayNumber (Months.shift d k)
  = Months.firstDay (Months.index d + k)
    + Z.min (DateInput.day d) (Months.length (Months.index d + k)) - 1.
Proof.
  rewrite <- dayNumber_firstDay, index_shift. reflexivity.
Qed.

(** [add(k, 'month')] on the value of a date input. *)
Lemma add_month_shift tz d k :
  DateInput.wellFormed d ->
  100 <= (Months.index d + k) / 12 ->
  Dayjs.add_month tz (DateInput.timeValue tz d) k
  = DateInput.timeValue tz (Months.shift d k).
Proof.
  intros Hwf Hk. pose proof Hwf as (Hy & Hm & Hd). unfold Dayjs.add_month.
  rewrite DiffFacts.month_value by assumption.
  unfold DateInput.timeValue at 1. unfold DateInput.dayNumber at 1.
  assert (Hq : DateInput.year d + (DateInput.month d - 1 + k) / 12
               = (Months.index d + k) / 12)
    by (unfold Months.index; Z.div_mod_to_equations; lia).
  assert (Hr : (DateInput.month d - 1 + k) mod 12 = (Months.index d + k) mod 12)
    by (unfold Months.index; Z.div_mod_to_equations; lia).
  rewrite set_month_midnight.
  - rewrite Hq, Hr.
    unfold DateInput.timeValue, DateInput.dayNumber, Months.shift, Months.length.
    cbn [DateInput.year DateInput.month DateInput.day].
    now replace ((Months.index d + k) mod 12 + 1 - 1)
      with ((Months.index d + k) mod 12) by lia.
  - lia.
  - now replace (DateInput.month d - 1 + 1) with (DateInput.month d) by lia.
  - rewrite Hq. assumption.
Qed.

Lemma midnight_sub tz n1 n2 :
  midnight tz n1 - midnight tz n2 = (n1 - n2) * msPerDay.
Proof. unfold midnight, UTC, MakeDate. lia. Qed.

End MonthFacts.

(** ** The difference in months, on day numbers *)

Module MonthDiffFacts.

Import JsDate JsDateFacts ZoneFacts DayjsFacts MonthFacts.

Lemma frac_value w P D :
  0 < D ->
  (- (inject_Z w + inject_Z P / inject_Z D) == (- (w * D + P)) # (Z.to_pos D))%Q.
Proof.
  intros HD. destruct D as [| D | D]; try lia.
  unfold Qeq, Qopp, Qplus, Qdiv, Qmult, Qinv, inject_Z.
  cbn [Qnum Qden Z.to_pos]. rewrite ?Pos2Z.inj_mul. lia.
Qed.

(** An integer is below [k + f], with [f] a fraction in [[0, 1)], when it
    is at most [k]. *)
Lemma frac_ge n w P D :
  0 < D -> - D < P <= 0 ->
  (inject_Z n <= - (inject_Z w + inject_Z P / inject_Z D))%Q <-> n <= - w.
Proof.
  intros HD HP. rewrite frac_value by assumption.
  destruct D as [| D | D]; try lia. cbn [Z.to_pos].
  unfold Qle, inject_Z. cbn [Qnum Qden]. nia.
Qed.

Lemma frac_le n w P D :
  0 < D -> - D < P <= 0 ->
  (- (inject_Z w + inject_Z P / inject_Z D) <= inject_Z n)%Q
  <-> - w < n \/ (- w = n /\ P = 0).
Proof.
  intros HD HP. rewrite frac_value by assumption.
  destruct D as [| D | D]; try lia. cbn [Z.to_pos].
  unfold Qle, inject_Z. cbn [Qnum Qden]. nia.
Qed.

Lemma timeValue_sub tz x y :
  DateInput.timeValue tz x - DateInput.timeValue tz y
  = (DateInput.dayNumber x - DateInput.dayNumber y) * msPerDay.
Proof. unfold DateInput.timeValue. apply midnight_sub. Qed.

Lemma index_year_bound d k :
  DateInput.wellFormed d -> -1 <= k <= 1 -> 100 <= (Months.index d + k) / 12.
Proof.
  intros (Hy & Hm & _) Hk. unfold Months.index. Z.div_mod_to_equations. lia.
Qed.

(** On the values of two date inputs, [monthDiff] of [dayjs] is the
    difference on day numbers, in every zone. *)
Lemma monthDiff_aligned_days tz a b :
  DateInput.wellFormed a -> DateInput.wellFormed b ->
  Dayjs.monthDiff_aligned tz (DateInput.timeValue tz a) (DateInput.timeValue tz b)
  = Months.alignedDiff a b.
Proof.
  intros Ha Hb. unfold Dayjs.monthDiff_aligned, Months.alignedDiff. cbv zeta.
  rewrite !DiffFacts.year_value, !DiffFacts.month_value by assumption.
  replace ((DateInput.year b - DateInput.year a) * 12
           + (DateInput.month b - 1 - (DateInput.month a - 1)))
    with (Months.index b - Months.index a) by (unfold Months.index; lia).
  set (w := Months.index b - Months.index a).
  assert (Hw : Months.index a + w = Months.index b) by (subst w; lia).
  assert (B0 : 100 <= (Months.index a + w) / 12).
  { rewrite Hw. pose proof (index_year_bound b 0 Hb ltac:(lia)) as B.
    now rewrite Z.add_0_r in B. }
  assert (Bm : 100 <= (Months.index a + (w + -1)) / 12).
  { replace (Months.index a + (w + -1)) with (Months.index b + -1) by lia.
    apply index_year_bound; [assumption | lia]. }
  assert (Bp : 100 <= (Months.index a + (w + 1)) / 12).
  { replace (Months.index a + (w + 1)) with (Months.index b + 1) by lia.
    apply index_year_bound; [assumption | lia]. }
  rewrite (add_month_shift tz a w Ha B0).
  rewrite !timeValue_sub.
  destruct ((DateInput.dayNumber b - DateInput.dayNumber (Months.shift a w))
            * msPerDay <? 0).
  - rewrite (add_month_shift tz a (w + -1) Ha Bm).
    rewrite !timeValue_sub. reflexivity.
  - rewrite (add_month_shift tz a (w + 1) Ha Bp).
    rewrite !timeValue_sub. reflexivity.
Qed.

Lemma monthDiff_days tz a b :
  DateInput.wellFormed a -> DateInput.wellFormed b ->
  Dayjs.monthDiff tz (DateInput.timeValue tz a) (DateInput.timeValue tz b)
  = Months.diff a b.
Proof.
  intros Ha Hb. unfold Dayjs.monthDiff, Months.diff.
  rewrite !DiffFacts.date_value, !monthDiff_aligned_days by assumption.
  reflexivity.
Qed.

(** The aligned difference is the number of months between the two months
    and a fraction in [[0, 1)], which is zero when the anchor falls on
    [b]. *)
Lemma alignedDiff_value a b :
  DateInput.wellFormed a -> DateInput.wellFormed b ->
  DateInput.day b <= DateInput.day a ->
  exists P D : Z,
    0 < D /\ - D < P <= 0
    /\ (P = 0 <-> Z.min (DateInput.day a) (Months.length (Months.index b)) = DateInput.day b)
    /\ Months.alignedDiff a b
       = (- (inject_Z (Months.index b - Months.index a) + inject_Z P / inject_Z D))%Q.
Proof.
  intros Ha Hb Hday. unfold Months.alignedDiff. cbv zeta.
  set (w := Months.index b - Months.index a).
  assert (Hw : Months.index a + w = Months.index b) by (subst w; lia).
  rewrite !dayNumber_shift, Hw.
  rewrite <- (dayNumber_firstDay b).
  destruct Ha as (_ & _ & Hda). destruct Hb as (_ & Hmb & Hdb).
  rewrite <- (length_index b Hmb) in Hdb.
  pose proof (firstDay_succ (Months.index b - 1)) as S1.
  replace (Months.index b - 1 + 1) with (Months.index b) in S1 by lia.
  pose proof (firstDay_succ (Months.index b)) as S2.
  pose proof (length_range (Months.index b - 1)) as R1.
  pose proof (length_range (Months.index b)) as R2.
  pose proof (length_range (Months.index b + 1)) as R3.
  unfold msPerDay.
  match goal with |- context [?x <? 0] => destruct (Z.ltb_spec x 0) as [Hc | Hc] end.
  - replace (Months.index a + (w + -1)) with (Months.index b - 1) by lia.
    generalize dependent (Months.firstDay (Months.index b - 1)).
    generalize dependent (Months.firstDay (Months.index b)).
    generalize dependent (Months.length (Months.index b - 1)).
    generalize dependent (Months.length (Months.index b)).
    intros l2 Hdb R2 l1 R1 f2 S2 Hc f1 S1.
    eexists. eexists. split; [| split; [| split; [| reflexivity]]]; lia.
  - replace (Months.index a + (w + 1)) with (Months.index b + 1) by lia.
    generalize dependent (Months.firstDay (Months.index b)).
    generalize dependent (Months.firstDay (Months.index b + 1)).
    generalize dependent (Months.length (Months.index b)).
    generalize dependent (Months.length (Months.index b + 1)).
    intros l3 R3 l2 Hdb R2 f3 f2 S1 S2 Hc.
    eexists. eexists. split; [| split; [| split; [| reflexivity]]]; lia.
Qed.

Lemma Qle_opp_swap (x y : Q) : (x <= - y <-> y <= - x)%Q.
Proof.
  split; intros H; apply Qopp_le_compat in H; now rewrite Qopp_involutive in H.
Qed.

(** [n] months are reached when the end is on or after the start moved by
    [n] months. *)
Lemma diff_ge s e n :
  DateInput.wellFormed s -> DateInput.wellFormed e ->
  (inject_Z n <= Months.diff e s)%Q
  <-> DateInput.dayNumber (Months.shift s n) <= DateInput.dayNumber e.
Proof.
  intros Hs He.
  rewrite dayNumber_shift, <- (dayNumber_firstDay e).
  pose proof Hs as (_ & Hms & Hds). pose proof He as (_ & Hme & Hde).
  rewrite <- (length_index s Hms) in Hds. rewrite <- (length_index e Hme) in Hde.
  pose proof (firstDay_succ (Months.index s + n)) as S1.
  pose proof (firstDay_succ (Months.index e)) as S2.
  pose proof (length_range (Months.index s + n)) as R1.
  pose proof (length_range (Months.index e)) as R2.
  assert (Hcases : Months.index s + n < Months.index e
                   \/ Months.index s + n = Months.index e
                   \/ Months.index e < Months.index s + n) by lia.
  unfold Months.diff.
  destruct (Z.ltb_spec (DateInput.day e) (DateInput.day s)) as [Hlt | Hge].
  - destruct (alignedDiff_value s e Hs He ltac:(lia)) as (P & D & HD & HP & H0 & ->).
    rewrite Qle_opp_swap, <- inject_Z_opp, (frac_le (- n) _ P D HD HP).
    destruct Hcases as [Hc | [Hc | Hc]].
    + pose proof (firstDay_lt _ _ Hc) as Hf. split; intros _; lia.
    + rewrite Hc in *. rewrite H0. split; intros H; lia.
    + pose proof (firstDay_lt _ _ Hc) as Hf. split; intros H; lia.
  - destruct (alignedDiff_value e s He Hs Hge) as (P & D & HD & HP & H0 & ->).
    rewrite (frac_ge n _ P D HD HP).
    destruct Hcases as [Hc | [Hc | Hc]].
    + pose proof (firstDay_lt _ _ Hc) as Hf. split; intros _; lia.
    + rewrite Hc in *. split; intros H; lia.
    + pose proof (firstDay_lt _ _ Hc) as Hf. split; intros H; lia.
Qed.

(** Swapping the two dates changes the sign. *)
Lemma diff_opp a b :
  DateInput.wellFormed a -> DateInput.wellFormed b ->
  (Months.diff a b == - Months.diff b a)%Q.
Proof.
  intros Ha Hb. unfold Months.diff.
  destruct (Z.ltb_spec (DateInput.day a) (DateInput.day b)) as [Hab | Hab];
    destruct (Z.ltb_spec (DateInput.day b) (DateInput.day a)) as [Hba | Hba];
    try lia.
  - reflexivity.
  - now rewrite Qopp_involutive.
  - assert (E : DateInput.day a = DateInput.day b) by lia.
    pose proof Ha as (_ & Hma & Hda). pose proof Hb as (_ & Hmb & Hdb).
    rewrite <- (length_index a Hma) in Hda. rewrite <- (length_index b Hmb) in Hdb.
    destruct (alignedDiff_value a b Ha Hb ltac:(lia)) as (P & D & HD & HP & H0 & ->).
    destruct (alignedDiff_value b a Hb Ha ltac:(lia)) as (P' & D' & HD' & HP' & H0' & ->).
    assert (P = 0) by (apply H0; lia). assert (P' = 0) by (apply H0'; lia).
    subst P P'. rewrite !frac_value by assumption.
    destruct D as [| D | D]; try lia. destruct D' as [| D' | D']; try lia.
    unfold Qeq, Qopp. cbn [Qnum Qden Z.to_pos]. nia.
Qed.

(** [n] months are not exceeded when the end moved back by [n] months is on
    or before the start. *)
Lemma diff_le s e n :
  DateInput.wellFormed s -> DateInput.wellFormed e ->
  (Months.diff e s <= inject_Z n)%Q
  <-> DateInput.dayNumber (Months.shift e (- n)) <= DateInput.dayNumber s.
Proof.
  intros Hs He. rewrite (diff_opp e s He Hs).
  rewrite <- (diff_ge e s (- n) He Hs), inject_Z_opp.
  split; intros H; apply Qopp_le_compat in H; now rewrite ?Qopp_involutive in H.
Qed.

(** The number of years of the schema is the difference in months over
    12. *)
Lemma calculateValidityPeriod_days tz s e :
  DateInput.wellFormed s -> DateInput.wellFormed e ->
  Constants.calculateValidityPeriod tz (DateInput.value s) (DateInput.value e)
  = (Months.diff e s / inject_Z 12)%Q.
Proof.
  intros Hs He. unfold Constants.calculateValidityPeriod. cbv zeta.
  rewrite !parse_value by assumption. unfold Dayjs.diff_year.
  now rewrite monthDiff_days.
Qed.

Lemma Qge_div_12 (x : Q) n :
  (x / inject_Z 12 <= inject_Z n <-> x <= inject_Z (12 * n))%Q.
Proof.
  destruct x as [p q].
  unfold Qle, Qdiv, Qmult, Qinv, inject_Z. cbn [Qnum Qden].
  rewrite !Pos2Z.inj_mul. lia.
Qed.







End MonthDiffFacts.

(** ** The window of the validity period, on the calendar *)

Module WindowFacts.

Import JsDate JsDateFacts ZoneFacts DayjsFacts MonthFacts MonthDiffFacts.

Lemma Qdiv_12_le (a b : Q) : (a / inject_Z 12 <= b / inject_Z 12 <-> a <= b)%Q.
Proof.
  destruct a as [p q], b as [p' q'].
  unfold Qle, Qdiv, Qmult, Qinv, inject_Z. cbn [Qnum Qden].
  rewrite !Pos2Z.inj_mul. lia.
Qed.

Lemma Qle_div_12_int (x : Q) n :
  (inject_Z n <= x / inject_Z 12 <-> inject_Z (12 * n) <= x)%Q.
Proof.
  destruct x as [p q].
  unfold Qle, Qdiv, Qmult, Qinv, inject_Z. cbn [Qnum Qden].
  rewrite !Pos2Z.inj_mul. lia.
Qed.

Lemma Qfloor_ge (x : Q) m : m <= Qfloor x <-> (inject_Z m <= x)%Q.
Proof.
  split; intros H.
  - apply Qle_trans with (inject_Z (Qfloor x)); [| apply Qfloor_le].
    now rewrite <- Zle_Qle.
  - apply Qfloor_resp_le in H. now rewrite Qfloor_Z in H.
Qed.

Lemma Math_round_ge (x : Q) m :
  m <= Js.Math_round (x / inject_Z 12) <-> (inject_Z (12 * m - 6) <= x)%Q.
Proof.
  unfold Js.Math_round. rewrite Qfloor_ge.
  destruct x as [p q].
  unfold Qle, Qdiv, Qmult, Qinv, Qplus, inject_Z. cbn [Qnum Qden].
  rewrite !Pos2Z.inj_mul. lia.
Qed.

(** The two comparisons of the test [validity-period], on day numbers. *)
Lemma years_below_1 tz s e :
  DateInput.wellFormed s -> DateInput.wellFormed e ->
  Js.Qltb (Constants.calculateValidityPeriod tz (DateInput.value s) (DateInput.value e)) 1
  = (DateInput.dayNumber e <? DateInput.dayNumber (Months.shift s 12)).
Proof.
  intros Hs He. rewrite calculateValidityPeriod_days by assumption.
  pose proof (diff_ge s e 12 Hs He) as H.
  pose proof (Qle_div_12_int (Months.diff e s) 1) as H1.
  change (12 * 1) with 12 in H1. change (inject_Z 1) with 1%Q in H1.
  destruct (Z.ltb_spec (DateInput.dayNumber e) (DateInput.dayNumber (Months.shift s 12))).
  - apply DateRuleFacts.Qltb_lt. apply Qnot_le_lt. intros Hq.
    apply H1, H in Hq. lia.
  - apply DateRuleFacts.Qltb_ge. apply H1, H. assumption.
Qed.

Lemma years_above_3 tz s e :
  DateInput.wellFormed s -> DateInput.wellFormed e ->
  Js.Qltb 3 (Constants.calculateValidityPeriod tz (DateInput.value s) (DateInput.value e))
  = (DateInput.dayNumber s <? DateInput.dayNumber (Months.shift e (-36))).
Proof.
  intros Hs He. rewrite calculateValidityPeriod_days by assumption.
  pose proof (diff_le s e 36 Hs He) as H.
  pose proof (Qge_div_12 (Months.diff e s) 3) as H1.
  change (12 * 3) with 36 in H1. change (inject_Z 3) with 3%Q in H1.
  change (- (36)) with (-36) in H.
  destruct (Z.ltb_spec (DateInput.dayNumber s) (DateInput.dayNumber (Months.shift e (-36)))).
  - apply DateRuleFacts.Qltb_lt. apply Qnot_le_lt. intros Hq.
    apply H1, H in Hq. lia.
  - apply DateRuleFacts.Qltb_ge. apply H1, H. assumption.
Qed.

(** A date moved forward by a year or more is a later date. *)
Lemma shift_later d k :
  0 < k -> DateInput.wellFormed d ->
  DateInput.dayNumber d < DateInput.dayNumber (Months.shift d k).
Proof.
  intros Hk (_ & Hm & Hd).
  rewrite dayNumber_shift, <- (dayNumber_firstDay d).
  rewrite <- (length_index d Hm) in Hd.
  pose proof (firstDay_succ (Months.index d)) as S1.
  pose proof (firstDay_lt (Months.index d) (Months.index d + k) ltac:(lia)) as S2.
  pose proof (length_range (Months.index d + k)). lia.
Qed.

(** The end date passes when the start moved forward by twelve months is
    reached and the end moved back by thirty-six months is not after the
    start. *)
Lemma endDate_None_calendar tz parent s e :
  DateInput.wellFormed s -> DateInput.wellFormed e ->
  Values.startDate parent = DateInput.value s ->
  Yup.firstError (Constants.endDate_tests tz parent) (DateInput.value e) = None
  <-> DateInput.dayNumber (Months.shift s 12) <= DateInput.dayNumber e
      /\ DateInput.dayNumber (Months.shift e (-36)) <= DateInput.dayNumber s.
Proof.
  intros Hs He Hp. unfold Constants.endDate_tests. cbn [Yup.firstError].
  rewrite DateRuleFacts.value_required by assumption.
  unfold Yup.test.
  rewrite (DateRuleFacts.validity_period_value tz parent s e) by assumption.
  cbv zeta. rewrite years_below_1, years_above_3 by assumption.
  pose proof (shift_later s 12 ltac:(lia) Hs) as Hl.
  destruct (Z.leb_spec (DateInput.dayNumber e) (DateInput.dayNumber s));
    [split; [discriminate | lia] |].
  destruct (Z.ltb_spec (DateInput.dayNumber e) (DateInput.dayNumber (Months.shift s 12)));
    [split; [discriminate | lia] |].
  destruct (Z.ltb_spec (DateInput.dayNumber s) (DateInput.dayNumber (Months.shift e (-36))));
    [split; [discriminate | lia] |].
  split; [intros _; lia | reflexivity].
Qed.


End WindowFacts.

(* ================================================================== *)
(** * Part III: the claims of the specification                        *)
(* ================================================================== *)

Ltac calendar_date := repeat split; vm_compute; discriminate.

(** C3. The OPEC predicate of the controller holds exactly on the thirteen
    codes DZ, AO, CG, GQ, GA, IR, IQ, KW, LY, NG, SA, AE, VE, and a change of
    the country to one of them leaves the form with the currency USD,
    whatever currency it held before. *)
Theorem opec_country_forces_usd :
  (forall c : string,
      Js.Array_includes Constants.OPEC_COUNTRIES c = true <-> Spec.inOpecSet c)
  /\
  (forall (c : string) (st : FinancingForm.State),
      Spec.inOpecSet c ->
      let st' := FinancingForm.exec (FinancingForm.changeCountry c) st in
      Values.currency (FinancingForm.values st') = "USD"
      /\ Values.country (FinancingForm.values st') = c
      /\ FinancingForm.currencyIsUserEditable st' = false).
Proof.
  split.
  - apply ControllerFacts.isOpec_spec.
  - intros c st H. apply ControllerFacts.isOpec_spec in H.
    unfold FinancingForm.exec.
    rewrite ControllerFacts.changeCountry_opec by assumption.
    cbn. auto.
Qed.

Lemma opec_country_forces_usd_witness :
  Spec.inOpecSet "SA" /\
  Values.currency
    (FinancingForm.values
       (FinancingForm.exec (FinancingForm.changeCountry "SA")
          (FinancingForm.mkState
             (Values.mk "Jane Doe" "US" "ABCD-1234" "test" (Some 1000%Q) "EUR"
                        "2025-07-21" "2027-07-21") false false))) = "USD".
Proof.
  assert (H : Spec.inOpecSet "SA").
  { unfold Spec.inOpecSet. do 10 right. left. reflexivity. }
  split; [exact H |].
  exact (proj1 (proj2 opec_country_forces_usd "SA" _ H)).
Defined.

(** C8. A change of the country to a code outside the OPEC set leaves the
    currency, and every other value but the country, as it was (a forced USD
    stays); the currency control becomes editable. *)
Theorem non_opec_country_keeps_currency :
  forall (c : string) (st : FinancingForm.State),
    ~ Spec.inOpecSet c ->
    let st' := FinancingForm.exec (FinancingForm.changeCountry c) st in
    Values.currency (FinancingForm.values st')
    = Values.currency (FinancingForm.values st)
    /\ FinancingForm.values st'
       = Values.set_country c (FinancingForm.values st)
    /\ FinancingForm.currencyIsUserEditable st' = true.
Proof.
  intros c st H.
  assert (E : Js.Array_includes Constants.OPEC_COUNTRIES c = false).
  { destruct (Js.Array_includes Constants.OPEC_COUNTRIES c) eqn:E; [| reflexivity].
    apply ControllerFacts.isOpec_spec in E. contradiction. }
  unfold FinancingForm.exec.
  rewrite ControllerFacts.changeCountry_other by assumption.
  cbn. auto.
Qed.

Lemma non_opec_country_keeps_currency_witness :
  ~ Spec.inOpecSet "US" /\
  Values.currency
    (FinancingForm.values
       (FinancingForm.exec (FinancingForm.changeCountry "US")
          (FinancingForm.mkState
             (Values.mk "Jane Doe" "SA" "ABCD-1234" "test" (Some 1000%Q) "USD"
                        "2025-07-21" "2027-07-21") true false))) = "USD".
Proof.
  assert (H : ~ Spec.inOpecSet "US").
  { unfold Spec.inOpecSet. intros H.
    repeat (destruct H as [H | H]; [discriminate H |]). discriminate H. }
  split; [exact H |].
  exact (proj1 (non_opec_country_keeps_currency "US" _ H)).
Defined.

(** C4. The project code passes exactly when it is four capital letters, a
    hyphen and four digits from 1 to 9; every other string, in particular
    one with a small letter, with a 0 among the digits, with a segment of
    the wrong length or without the hyphen, fails with the message of the
    format. *)
Theorem projectCode_validation (s : string) :
  (Yup.firstError Constants.projectCode_tests s = None
   <-> Spec.matchesProjectCode s)
  /\
  (~ Spec.matchesProjectCode s ->
   Yup.firstError Constants.projectCode_tests s = Some Spec.FormatInvalid)
  /\
  (Spec.hasLowercase s || Spec.zeroInNumericGroup s
   || Spec.wrongLengthSegment s || Spec.missingHyphen s = true ->
   Yup.firstError Constants.projectCode_tests s = Some Spec.FormatInvalid).
Proof.
  rewrite SchemaFacts.projectCode_error.
  pose proof (SchemaFacts.search_projectCode s) as Hs.
  pose proof (SchemaFacts.malformed_not_matching s) as Hm.
  destruct (Yup.search Constants.projectCodeRegex s).
  - split; [tauto |]. split; [tauto |].
    intros H. exfalso. apply (Hm H). tauto.
  - split; [| tauto]. split; [discriminate |].
    intros H. apply Hs in H. discriminate.
Qed.

Lemma projectCode_validation_witness :
  Yup.firstError Constants.projectCode_tests "ABCD-1204" = Some Spec.FormatInvalid
  /\ Yup.firstError Constants.projectCode_tests "abcd-1234" = Some Spec.FormatInvalid
  /\ Yup.firstError Constants.projectCode_tests "ABC-12345" = Some Spec.FormatInvalid
  /\ Yup.firstError Constants.projectCode_tests "ABCD1234" = Some Spec.FormatInvalid.
Proof.
  split; [| split; [| split]].
  - apply (proj2 (proj2 (projectCode_validation "ABCD-1204"))). reflexivity.
  - apply (proj2 (proj2 (projectCode_validation "abcd-1234"))). reflexivity.
  - apply (proj2 (proj2 (projectCode_validation "ABC-12345"))). reflexivity.
  - apply (proj2 (proj2 (projectCode_validation "ABCD1234"))). reflexivity.
Defined.

(** C9 does not hold as stated: a name that is one space consists of white
    space only, and the schema accepts it. *)
Lemma name_whitespace_counterexample :
  ~ (forall s : string,
        Spec.whitespaceOnly s = true ->
        Yup.firstError Constants.name_tests s = Some Spec.NameRequired).
Proof.
  intros H. specialize (H " " eq_refl). discriminate H.
Qed.

(** C9, amended. The name fails with the message of a required field
    exactly when it is the empty string; every other string passes, one made
    of white space included. *)
Theorem name_required_iff_empty (s : string) :
  (Yup.firstError Constants.name_tests s = Some Spec.NameRequired <-> s = "")
  /\ (Yup.firstError Constants.name_tests s = None <-> s <> "").
Proof.
  unfold Constants.name_tests, Yup.firstError, Yup.required, Spec.NameRequired.
  destruct s as [| c r]; cbn; split; split; congruence.
Qed.

(** C7. On a response with status 409 the submission shows the error
    message of a duplicate project code and leaves the values of the form as
    they were; no failure resets the form, the success does. *)
Theorem conflict_keeps_form_values
  (tz : Z) (data : Values.t) (st : FinancingForm.State)
  (body : option string) (request : bool) (message : string) :
  let conflict :=
    FinancingForm.Rejected
      (FinancingForm.AxiosError (Some (FinancingForm.mkResponse 409 body))
                                request message) in
  FinancingForm.effects (FinancingForm.onSubmit tz data conflict) st
  = [ FinancingForm.Post Constants.REQUESTS (FinancingForm.apiData tz data);
      FinancingForm.ConsoleError;
      FinancingForm.ToastError Spec.Conflict ]
  /\ FinancingForm.values (FinancingForm.exec (FinancingForm.onSubmit tz data conflict) st)
     = FinancingForm.values st
  /\ (forall error : FinancingForm.Thrown,
         FinancingForm.values
           (FinancingForm.exec
              (FinancingForm.onSubmit tz data (FinancingForm.Rejected error)) st)
         = FinancingForm.values st)
  /\ FinancingForm.values
       (FinancingForm.exec (FinancingForm.onSubmit tz data FinancingForm.Resolved) st)
     = Values.empty.
Proof.
  cbv zeta. repeat split.
Qed.




(** C2. On a date of the calendar, the test of [startDate] passes exactly
    when the date is the fifteenth day after the local day of the instant of
    validation, or a later one: fourteen days after that day fails, fifteen
    days pass; the instant is read when the test runs. *)
Theorem startDate_min_15_days (tz now : Z) (d : DateInput.t) :
  DateInput.wellFormed d ->
  let today := JsDate.Day (JsDate.LocalTime tz now) in
  let verdict :=
    Yup.firstError (Constants.startDate_tests tz now) (DateInput.value d) in
  (verdict = None <-> today + 15 <= DateInput.dayNumber d)
  /\ (DateInput.dayNumber d = today + 14 ->
      verdict = Some "Start date must be at least 15 days from today")
  /\ (DateInput.dayNumber d = today + 15 -> verdict = None)
  /\ Yup.firstError (Constants.startDate_tests tz now) ""
     = Some "Start date is required".
Proof.
  intros Hd today verdict. subst verdict.
  rewrite DateRuleFacts.startDate_error by assumption. fold today.
  destruct (Z.leb_spec (today + 15) (DateInput.dayNumber d)).
  - split; [tauto |]. split; [lia |]. split; reflexivity.
  - split; [split; [discriminate | lia] |].
    split; [reflexivity |]. split; [lia | reflexivity].
Qed.

Lemma startDate_min_15_days_witness :
  Yup.firstError (Constants.startDate_tests 120 1751324400000)
    (DateInput.value (DateInput.mk 2025 7 15))
  = Some "Start date must be at least 15 days from today"
  /\ Yup.firstError (Constants.startDate_tests 120 1751324400000)
       (DateInput.value (DateInput.mk 2025 7 16)) = None.
Proof.
  split.
  - refine (proj1 (proj2 (startDate_min_15_days 120 1751324400000
                            (DateInput.mk 2025 7 15) _)) _).
    + calendar_date.
    + vm_compute. reflexivity.
  - refine (proj1 (proj2 (proj2 (startDate_min_15_days 120 1751324400000
                                   (DateInput.mk 2025 7 16) _))) _).
    + calendar_date.
    + vm_compute. reflexivity.
Defined.







(** C10. The two computations of the minimum start date disagree at
    23:00 UTC on 30 June 2025 in a zone two hours east of UTC, where it is
    1 July: the date part of the ISO string is 15 July, fifteen days after
    the local day is 16 July. *)
Theorem minStartDate_utc_against_local :
  Earlier.minStartDate 1751324400000 = "2025-07-15"
  /\ Constants.getMinStartDate 120 1751324400000 = "2025-07-16".
Proof. split; vm_compute; reflexivity. Qed.

(** ** The earlier revision, and the scenario of a valid request *)

Module Scenarios.

(** Twenty days after 1 July 2025 for two years: the values are valid and
    the request carries a validity period of 2. *)
Example valid_request_two_years :
  let request :=
    Values.mk "Jane Doe" "US" "ABCD-1234" "test" (Some 1000%Q) "EUR"
              "2025-07-21" "2027-07-21" in
  Constants.isValid 120 1751324400000 request = true
  /\ Api.validityPeriod (FinancingForm.apiData 120 request) = 2.
Proof. split; vm_compute; reflexivity. Qed.

(** The earlier test of the end date measures from 1 July 2025 whatever the
    start date of the form is. *)
Example earlier_window_is_anchored_at_a_fixed_date :
  Yup.firstError (Earlier.endDate_tests 0) "2031-01-01"
  = Some "Validity period cannot exceed 3 years"
  /\ Yup.firstError
       (Constants.endDate_tests 0
          (Values.mk "" "" "" "" None "" "2030-01-01" "2031-01-01"))
       "2031-01-01" = None.
Proof. split; vm_compute; reflexivity. Qed.

(** The earlier schema accepts any start date. *)
Example earlier_start_date_is_only_required :
  Yup.firstError Earlier.startDate_tests "2000-01-01" = None.
Proof. reflexivity. Qed.

(** The earlier submission sends the difference of the calendar years, 2
    from December 2026 to January 2028, where the rounded number of years
    is 1. *)
Example earlier_validity_period_is_a_difference_of_years :
  let data := Values.mk "" "" "" "" None "" "2026-12-01" "2028-01-01" in
  Earlier.validityPeriod 0 data = Some 2
  /\ Api.validityPeriod (FinancingForm.apiData 0 data) = 1.
Proof. split; vm_compute; reflexivity. Qed.

End Scenarios.

(* ================================================================== *)
(** * Part IV: further properties of the code                          *)
(* ================================================================== *)

(** X1. For two dates of the calendar, the number of years that
    [calculateValidityPeriod] gives is the same in every zone of fixed
    offset. *)
Theorem validityPeriod_zone_independent (tz1 tz2 : Z) (s e : DateInput.t) :
  DateInput.wellFormed s -> DateInput.wellFormed e ->
  Constants.calculateValidityPeriod tz1 (DateInput.value s) (DateInput.value e)
  = Constants.calculateValidityPeriod tz2 (DateInput.value s) (DateInput.value e).
Proof.
  intros Hs He. now rewrite !MonthDiffFacts.calculateValidityPeriod_days.
Qed.

Lemma validityPeriod_zone_independent_witness :
  Constants.calculateValidityPeriod (-480)
    (DateInput.value (DateInput.mk 2026 1 31)) (DateInput.value (DateInput.mk 2027 3 15))
  = Constants.calculateValidityPeriod 330
      (DateInput.value (DateInput.mk 2026 1 31)) (DateInput.value (DateInput.mk 2027 3 15)).
Proof.
  apply (validityPeriod_zone_independent (-480) 330); calendar_date.
Defined.

(** X2. In a zone of fixed offset, swapping the start and the end changes
    the sign of the number of years, and a date is zero years from
    itself. *)
Theorem validityPeriod_antisymmetric (tz : Z) (s e : DateInput.t) :
  DateInput.wellFormed s -> DateInput.wellFormed e ->
  (Constants.calculateValidityPeriod tz (DateInput.value s) (DateInput.value e)
   == - Constants.calculateValidityPeriod tz (DateInput.value e) (DateInput.value s))%Q
  /\ (Constants.calculateValidityPeriod tz (DateInput.value s) (DateInput.value s) == 0)%Q.
Proof.
  intros Hs He. rewrite !MonthDiffFacts.calculateValidityPeriod_days by assumption.
  split.
  - rewrite (MonthDiffFacts.diff_opp e s He Hs). unfold Qdiv. ring.
  - pose proof (MonthDiffFacts.diff_opp s s Hs Hs) as H.
    destruct (Months.diff s s) as [p q].
    unfold Qeq, Qopp, Qdiv, Qmult, Qinv, inject_Z in *. cbn [Qnum Qden] in *. lia.
Qed.

Lemma validityPeriod_antisymmetric_witness :
  (Constants.calculateValidityPeriod 60
     (DateInput.value (DateInput.mk 2026 1 31)) (DateInput.value (DateInput.mk 2027 3 15))
   == - Constants.calculateValidityPeriod 60
         (DateInput.value (DateInput.mk 2027 3 15)) (DateInput.value (DateInput.mk 2026 1 31)))%Q.
Proof.
  apply (validityPeriod_antisymmetric 60 (DateInput.mk 2026 1 31) (DateInput.mk 2027 3 15));
    calendar_date.
Defined.

(** X3. In a zone of fixed offset, the number of years reaches [n]
    twelfths when the end is on or after the start moved forward by [n]
    months (to the same day of the month, or to the last day of a shorter
    month), and does not exceed [n] twelfths when the end moved back by [n]
    months is on or before the start. *)
Theorem validityPeriod_month_thresholds (tz : Z) (s e : DateInput.t) (n : Z) :
  DateInput.wellFormed s -> DateInput.wellFormed e ->
  let years :=
    Constants.calculateValidityPeriod tz (DateInput.value s) (DateInput.value e) in
  ((inject_Z n / inject_Z 12 <= years)%Q
   <-> DateInput.dayNumber (Months.shift s n) <= DateInput.dayNumber e)
  /\ ((years <= inject_Z n / inject_Z 12)%Q
      <-> DateInput.dayNumber (Months.shift e (- n)) <= DateInput.dayNumber s).
Proof.
  intros Hs He years. subst years.
  rewrite MonthDiffFacts.calculateValidityPeriod_days by assumption.
  rewrite !WindowFacts.Qdiv_12_le. split.
  - now apply MonthDiffFacts.diff_ge.
  - now apply MonthDiffFacts.diff_le.
Qed.

Lemma validityPeriod_month_thresholds_witness :
  (Constants.calculateValidityPeriod 0
     (DateInput.value (DateInput.mk 2025 2 28)) (DateInput.value (DateInput.mk 2028 2 29))
   <= inject_Z 36 / inject_Z 12)%Q
  <-> DateInput.dayNumber (Months.shift (DateInput.mk 2028 2 29) (- 36))
      <= DateInput.dayNumber (DateInput.mk 2025 2 28).
Proof.
  apply (validityPeriod_month_thresholds 0 (DateInput.mk 2025 2 28)
           (DateInput.mk 2028 2 29) 36); calendar_date.
Defined.

(** X4. In a zone of fixed offset, on two dates of the calendar, the
    verdict of the test of [endDate] reads off the calendar, with its
    message: an end on or before the start is refused as not
    after the start; an end before the start moved forward by twelve months
    is refused as shorter than a year; an end which, moved back by
    thirty-six months, falls after the start is refused as longer than
    three years; every other end passes. *)
Theorem endDate_verdict_on_calendar
  (tz : Z) (parent : Values.t) (s e : DateInput.t) :
  DateInput.wellFormed s -> DateInput.wellFormed e ->
  Values.startDate parent = DateInput.value s ->
  Yup.firstError (Constants.endDate_tests tz parent) (DateInput.value e)
  = if DateInput.dayNumber e <=? DateInput.dayNumber s
    then Some "End date must be after start date"
    else if DateInput.dayNumber e <? DateInput.dayNumber (Months.shift s 12)
    then Some "Validity period must be at least 1 year"
    else if DateInput.dayNumber s <? DateInput.dayNumber (Months.shift e (-36))
    then Some "Validity period cannot exceed 3 years"
    else None.
Proof.
  intros Hs He Hp. unfold Constants.endDate_tests. cbn [Yup.firstError].
  rewrite DateRuleFacts.value_required by assumption.
  unfold Yup.test.
  rewrite (DateRuleFacts.validity_period_value tz parent s e) by assumption.
  cbv zeta. rewrite WindowFacts.years_below_1, WindowFacts.years_above_3 by assumption.
  repeat match goal with |- context [if ?b then _ else _] => destruct b end;
    reflexivity.
Qed.

Lemma endDate_verdict_on_calendar_witness :
  Yup.firstError
    (Constants.endDate_tests 0 (Values.mk "" "" "" "" None "" "2025-02-28" ""))
    (DateInput.value (DateInput.mk 2028 2 29)) = None.
Proof.
  refine (eq_trans
            (endDate_verdict_on_calendar 0 _ (DateInput.mk 2025 2 28)
               (DateInput.mk 2028 2 29) _ _ _) _).
  - calendar_date.
  - calendar_date.
  - reflexivity.
  - vm_compute. reflexivity.
Defined.

(** X5. In a zone of fixed offset, the whole number of years that the
    request carries is at least [m] exactly when the end date is on or after
    the start date moved forward by [12 m - 6] months: the rounding goes up
    from the half year on. *)
Theorem validityPeriod_sent_on_calendar
  (tz : Z) (data : Values.t) (s e : DateInput.t) (m : Z) :
  DateInput.wellFormed s -> DateInput.wellFormed e ->
  Values.startDate data = DateInput.value s ->
  Values.endDate data = DateInput.value e ->
  m <= Api.validityPeriod (FinancingForm.apiData tz data)
  <-> DateInput.dayNumber (Months.shift s (12 * m - 6)) <= DateInput.dayNumber e.
Proof.
  intros Hs He Es Ee. unfold FinancingForm.apiData. cbn [Api.validityPeriod].
  rewrite Es, Ee, MonthDiffFacts.calculateValidityPeriod_days by assumption.
  rewrite WindowFacts.Math_round_ge. now apply MonthDiffFacts.diff_ge.
Qed.

Lemma validityPeriod_sent_on_calendar_witness :
  2 <= Api.validityPeriod
         (FinancingForm.apiData 0
            (Values.mk "" "" "" "" None "" "2026-01-31" "2027-07-31"))
  <-> DateInput.dayNumber (Months.shift (DateInput.mk 2026 1 31) (12 * 2 - 6))
      <= DateInput.dayNumber (DateInput.mk 2027 7 31).
Proof.
  apply (validityPeriod_sent_on_calendar 0 _ (DateInput.mk 2026 1 31)
           (DateInput.mk 2027 7 31) 2); try calendar_date; reflexivity.
Defined.

(** ** Dates written by [format] and by [toISOString] *)

Module DateStringFacts.

Import JsDate JsDateFacts ZoneFacts DayjsFacts MonthFacts.

(** The fields of the day of a date of the calendar, written with leading
    zeros, are the value of the date input on that date. *)
Lemma civil_string n d :
  DateInput.wellFormed d -> n = DateInput.dayNumber d ->
  pad 4 (YearFromDay n) ++ "-" ++ pad 2 (MonthFromDay n + 1) ++ "-"
    ++ pad 2 (DateFromDay n) = DateInput.value d.
Proof.
  intros (Hy & Hm & Hd) ->. unfold DateInput.dayNumber, DateInput.value.
  assert (Hd' : 1 <= DateInput.day d
                <= DateInput.daysIn (DateInput.year d) (DateInput.month d - 1 + 1))
    by now replace (DateInput.month d - 1 + 1) with (DateInput.month d) by lia.
  rewrite YearFromDay_MakeDay, MonthFromDay_MakeDay, DateFromDay_MakeDay
    by (assumption || lia).
  now replace (DateInput.month d - 1 + 1) with (DateInput.month d) by lia.
Qed.

Lemma format_day tz t d :
  DateInput.wellFormed d -> Day (LocalTime tz t) = DateInput.dayNumber d ->
  Dayjs.format tz t = DateInput.value d.
Proof.
  intros Hd Hn. unfold Dayjs.format, Dayjs.year, Dayjs.month, Dayjs.date,
    getFullYear, getMonth, getDate.
  now apply civil_string.
Qed.

(** Two dates of the calendar with the same value are the same day. *)
Lemma value_inj d1 d2 :
  DateInput.wellFormed d1 -> DateInput.wellFormed d2 ->
  DateInput.value d1 = DateInput.value d2 ->
  DateInput.dayNumber d1 = DateInput.dayNumber d2.
Proof.
  intros H1 H2 E.
  pose proof (parse_value 0 d1 H1) as P1. pose proof (parse_value 0 d2 H2) as P2.
  rewrite E, P2 in P1. injection P1 as P1.
  unfold DateInput.timeValue in P1.
  pose proof (midnight_le 0 (DateInput.dayNumber d1) (DateInput.dayNumber d2)).
  pose proof (midnight_le 0 (DateInput.dayNumber d2) (DateInput.dayNumber d1)).
  lia.
Qed.

Lemma getMinStartDate_value tz now d :
  DateInput.wellFormed d ->
  DateInput.dayNumber d = Day (LocalTime tz now) + 15 ->
  Constants.getMinStartDate tz now = DateInput.value d.
Proof.
  intros Hd Hn. unfold Constants.getMinStartDate. cbv zeta.
  apply format_day; [assumption |].
  rewrite add_day_ms. unfold LocalTime.
  replace (now + Constants.MIN_DAYS_FROM_NOW * msPerDay + LocalTZA tz)
    with (now + LocalTZA tz + 15 * msPerDay)
    by (unfold Constants.MIN_DAYS_FROM_NOW; lia).
  rewrite DateRuleFacts.Day_add_days. unfold LocalTime in Hn. lia.
Qed.

Lemma minStartDate_value now d :
  DateInput.wellFormed d ->
  DateInput.dayNumber d = Day (now + 1296000000) ->
  Earlier.minStartDate now = DateInput.value d.
Proof.
  intros Hd Hn. unfold Earlier.minStartDate.
  pose proof Hd as (Hy & Hm & Hday).
  assert (Hyear : YearFromDay (Day (now + 1296000000)) = DateInput.year d).
  { rewrite <- Hn. unfold DateInput.dayNumber. apply YearFromDay_MakeDay; [lia |].
    now replace (DateInput.month d - 1 + 1) with (DateInput.month d) by lia. }
  rewrite MinStartDateFacts.toISOString_date by (rewrite Hyear; lia).
  apply civil_string; [assumption | now symmetry].
Qed.

End DateStringFacts.

(** X6. [getMinStartDate] returns the value of the date fifteen days after
    the local day of the instant; that date passes the test of [startDate],
    and a date passes exactly when it is that date or a later one: the
    minimum that the date picker receives is the least date that the schema
    accepts. *)
Theorem getMinStartDate_least_accepted (tz now : Z) (dmin d : DateInput.t) :
  DateInput.wellFormed dmin -> DateInput.wellFormed d ->
  DateInput.dayNumber dmin = JsDate.Day (JsDate.LocalTime tz now) + 15 ->
  Constants.getMinStartDate tz now = DateInput.value dmin
  /\ Yup.firstError (Constants.startDate_tests tz now)
       (Constants.getMinStartDate tz now) = None
  /\ (Yup.firstError (Constants.startDate_tests tz now) (DateInput.value d) = None
      <-> DateInput.dayNumber dmin <= DateInput.dayNumber d).
Proof.
  intros Hmin Hd Hn.
  rewrite (DateStringFacts.getMinStartDate_value tz now dmin Hmin Hn).
  rewrite !DateRuleFacts.startDate_error by assumption. rewrite <- Hn.
  split; [reflexivity |]. split.
  - destruct (Z.leb_spec (DateInput.dayNumber dmin) (DateInput.dayNumber dmin));
      [reflexivity | lia].
  - destruct (Z.leb_spec (DateInput.dayNumber dmin) (DateInput.dayNumber d));
      split; (discriminate || lia || reflexivity).
Qed.

Lemma getMinStartDate_least_accepted_witness :
  Constants.getMinStartDate 120 1751324400000
  = DateInput.value (DateInput.mk 2025 7 16).
Proof.
  apply (getMinStartDate_least_accepted 120 1751324400000
           (DateInput.mk 2025 7 16) (DateInput.mk 2025 7 16));
    [calendar_date | calendar_date | vm_compute; reflexivity].
Defined.

(** X7. The earlier computation of the minimum start date returns the date
    of the UTC day fifteen days after the instant, [getMinStartDate] the
    date fifteen days after the local day; the two strings are equal exactly
    when the instant falls on the same day in UTC and in the zone. *)
Theorem minStartDate_agreement (tz now : Z) (dUtc dLocal : DateInput.t) :
  DateInput.wellFormed dUtc -> DateInput.wellFormed dLocal ->
  DateInput.dayNumber dUtc = JsDate.Day (now + 1296000000) ->
  DateInput.dayNumber dLocal = JsDate.Day (JsDate.LocalTime tz now) + 15 ->
  Earlier.minStartDate now = DateInput.value dUtc
  /\ Constants.getMinStartDate tz now = DateInput.value dLocal
  /\ (Earlier.minStartDate now = Constants.getMinStartDate tz now
      <-> JsDate.Day now = JsDate.Day (JsDate.LocalTime tz now)).
Proof.
  intros HU HL EU EL.
  rewrite (DateStringFacts.minStartDate_value now dUtc HU EU).
  rewrite (DateStringFacts.getMinStartDate_value tz now dLocal HL EL).
  split; [reflexivity |]. split; [reflexivity |].
  assert (E15 : JsDate.Day (now + 1296000000) = JsDate.Day now + 15).
  { change 1296000000 with (15 * JsDate.msPerDay).
    apply DateRuleFacts.Day_add_days. }
  split.
  - intros E. apply DateStringFacts.value_inj in E; try assumption. lia.
  - intros E. assert (Hn : DateInput.dayNumber dUtc = DateInput.dayNumber dLocal) by lia.
    clear - HU HL Hn.
    destruct dUtc as [y1 m1 d1], dLocal as [y2 m2 d2].
    unfold DateInput.dayNumber in Hn. cbn [DateInput.year DateInput.month DateInput.day] in Hn.
    destruct HU as (Hy1 & Hm1 & Hd1). destruct HL as (Hy2 & Hm2 & Hd2).
    cbn [DateInput.year DateInput.month DateInput.day] in *.
    assert (Hd1' : 1 <= d1 <= DateInput.daysIn y1 (m1 - 1 + 1))
      by now replace (m1 - 1 + 1) with m1 by lia.
    assert (Hd2' : 1 <= d2 <= DateInput.daysIn y2 (m2 - 1 + 1))
      by now replace (m2 - 1 + 1) with m2 by lia.
    pose proof (JsDateFacts.YearFromDay_MakeDay y1 (m1 - 1) d1 ltac:(lia) Hd1') as Y1.
    pose proof (JsDateFacts.MonthFromDay_MakeDay y1 (m1 - 1) d1 ltac:(lia) Hd1') as M1.
    pose proof (JsDateFacts.DateFromDay_MakeDay y1 (m1 - 1) d1 ltac:(lia) Hd1') as D1.
    rewrite Hn in Y1, M1, D1.
    rewrite (JsDateFacts.YearFromDay_MakeDay y2 (m2 - 1) d2 ltac:(lia) Hd2') in Y1.
    rewrite (JsDateFacts.MonthFromDay_MakeDay y2 (m2 - 1) d2 ltac:(lia) Hd2') in M1.
    rewrite (JsDateFacts.DateFromDay_MakeDay y2 (m2 - 1) d2 ltac:(lia) Hd2') in D1.
    subst. f_equal. f_equal. lia.
Qed.

Lemma minStartDate_agreement_witness :
  Earlier.minStartDate 1751324400000 = Constants.getMinStartDate 120 1751324400000
  <-> JsDate.Day 1751324400000 = JsDate.Day (JsDate.LocalTime 120 1751324400000).
Proof.
  apply (minStartDate_agreement 120 1751324400000
           (DateInput.mk 2025 7 15) (DateInput.mk 2025 7 16));
    [calendar_date | calendar_date | vm_compute; reflexivity
    | vm_compute; reflexivity].
Defined.

(** ** The earlier revision on the calendar *)

Module EarlierFacts.

Import JsDate JsDateFacts ZoneFacts DayjsFacts MonthFacts MonthDiffFacts.

Lemma fixed_start_wellFormed : DateInput.wellFormed (DateInput.mk 2025 7 1).
Proof. calendar_date. Qed.

(** The earlier test of the end date is the test of the current schema on
    a form that starts on 1 July 2025. *)
Lemma validity_period_fixed tz value :
  Earlier.validity_period tz value
  = Constants.validity_period tz
      (Values.mk "" "" "" "" None "" (DateInput.value (DateInput.mk 2025 7 1)) "")
      value.
Proof. reflexivity. Qed.

(** Thirty-six months back from the end fall after 1 July 2025 when the
    end is after 1 July 2028. *)
Lemma back_36_after_fixed_start e :
  DateInput.wellFormed e ->
  (DateInput.dayNumber (DateInput.mk 2025 7 1)
   <? DateInput.dayNumber (Months.shift e (-36)))
  = (DateInput.dayNumber (DateInput.mk 2028 7 1) <? DateInput.dayNumber e).
Proof.
  intros (_ & Hm & Hd).
  rewrite dayNumber_shift, <- (dayNumber_firstDay e).
  rewrite <- (dayNumber_firstDay (DateInput.mk 2025 7 1)).
  rewrite <- (dayNumber_firstDay (DateInput.mk 2028 7 1)).
  rewrite <- (length_index e Hm) in Hd.
  change (Months.index (DateInput.mk 2025 7 1)) with 24306.
  change (Months.index (DateInput.mk 2028 7 1)) with 24342.
  cbn [DateInput.day].
  pose proof (firstDay_succ (Months.index e)) as S1.
  pose proof (firstDay_succ (Months.index e + -36)) as S2.
  pose proof (firstDay_succ 24306) as S3.
  pose proof (firstDay_succ 24342) as S4.
  pose proof (length_range (Months.index e)) as R1.
  pose proof (length_range (Months.index e + -36)) as R2.
  pose proof (length_range 24306) as R3.
  pose proof (length_range 24342) as R4.
  assert (Hcases : Months.index e < 24342 \/ Months.index e = 24342
                   \/ 24342 < Months.index e) by lia.
  destruct Hcases as [Hc | [Hc | Hc]].
  - pose proof (firstDay_lt (Months.index e) 24342 Hc) as F1.
    pose proof (firstDay_lt (Months.index e + -36) 24306 ltac:(lia)) as F2.
    destruct (Z.ltb_spec (Months.firstDay 24306 + 1 - 1)
                (Months.firstDay (Months.index e + -36)
                 + Z.min (DateInput.day e) (Months.length (Months.index e + -36)) - 1));
      destruct (Z.ltb_spec (Months.firstDay 24342 + 1 - 1)
                  (Months.firstDay (Months.index e) + DateInput.day e - 1));
      (reflexivity || lia).
  - rewrite Hc in *. change (24342 + -36) with 24306 in *.
    destruct (Z.ltb_spec (Months.firstDay 24306 + 1 - 1)
                (Months.firstDay 24306
                 + Z.min (DateInput.day e) (Months.length 24306) - 1));
      destruct (Z.ltb_spec (Months.firstDay 24342 + 1 - 1)
                  (Months.firstDay 24342 + DateInput.day e - 1));
      (reflexivity || lia).
  - pose proof (firstDay_lt 24342 (Months.index e) Hc) as F1.
    pose proof (firstDay_lt 24306 (Months.index e + -36) ltac:(lia)) as F2.
    change (24342 + 1) with 24343 in *. change (24306 + 1) with 24307 in *.
    destruct (Z.ltb_spec (Months.firstDay 24306 + 1 - 1)
                (Months.firstDay (Months.index e + -36)
                 + Z.min (DateInput.day e) (Months.length (Months.index e + -36)) - 1));
      destruct (Z.ltb_spec (Months.firstDay 24342 + 1 - 1)
                  (Months.firstDay (Months.index e) + DateInput.day e - 1));
      (reflexivity || lia).
Qed.

Section Zone.

Variable tz : Z.

(** The local year of midnight UTC of a day, east and west of UTC. *)
Lemma getFullYear_utc_midnight_east n :
  0 <= tz < 1440 -> getFullYear tz (midnight 0 n) = YearFromDay n.
Proof.
  intros H. unfold getFullYear. f_equal.
  unfold Day, LocalTime, midnight, UTC, MakeDate, LocalTZA, msPerDay, msPerMinute.
  Z.div_mod_to_equations. lia.
Qed.

Lemma getFullYear_utc_midnight_west n :
  -1440 <= tz < 0 -> getFullYear tz (midnight 0 n) = YearFromDay (n - 1).
Proof.
  intros H. unfold getFullYear. f_equal.
  unfold Day, LocalTime, midnight, UTC, MakeDate, LocalTZA, msPerDay, msPerMinute.
  Z.div_mod_to_equations. lia.
Qed.

End Zone.

End EarlierFacts.

(** X8. The earlier test of the end date does not read the start date of
    the form: on a date of the calendar it passes exactly from 1 July 2026
    to 1 July 2028, refuses an end up to 1 July 2025 as not after the start,
    an end before 1 July 2026 as shorter than a year and an end after 1 July
    2028 as longer than three years. *)
Theorem earlier_endDate_fixed_window (tz : Z) (e : DateInput.t) :
  DateInput.wellFormed e ->
  Yup.firstError (Earlier.endDate_tests tz) (DateInput.value e)
  = if DateInput.dayNumber e <=? DateInput.dayNumber (DateInput.mk 2025 7 1)
    then Some "End date must be after start date"
    else if DateInput.dayNumber e <? DateInput.dayNumber (DateInput.mk 2026 7 1)
    then Some "Validity period must be at least 1 year"
    else if DateInput.dayNumber (DateInput.mk 2028 7 1) <? DateInput.dayNumber e
    then Some "Validity period cannot exceed 3 years"
    else None.
Proof.
  intros He. unfold Earlier.endDate_tests. cbn [Yup.firstError].
  rewrite DateRuleFacts.value_required by assumption.
  unfold Yup.test. rewrite EarlierFacts.validity_period_fixed.
  rewrite (DateRuleFacts.validity_period_value tz
             (Values.mk "" "" "" "" None ""
                        (DateInput.value (DateInput.mk 2025 7 1)) "")
             (DateInput.mk 2025 7 1) e
             EarlierFacts.fixed_start_wellFormed He eq_refl).
  cbv zeta.
  rewrite WindowFacts.years_below_1, WindowFacts.years_above_3
    by (assumption || exact EarlierFacts.fixed_start_wellFormed).
  rewrite EarlierFacts.back_36_after_fixed_start by assumption.
  change (DateInput.dayNumber (Months.shift (DateInput.mk 2025 7 1) 12))
    with (DateInput.dayNumber (DateInput.mk 2026 7 1)).
  repeat match goal with |- context [if ?b then _ else _] => destruct b end;
    reflexivity.
Qed.

Lemma earlier_endDate_fixed_window_witness :
  Yup.firstError (Earlier.endDate_tests 0) (DateInput.value (DateInput.mk 2028 7 2))
  = Some "Validity period cannot exceed 3 years".
Proof.
  refine (eq_trans (earlier_endDate_fixed_window 0 (DateInput.mk 2028 7 2) _) _).
  - calendar_date.
  - vm_compute. reflexivity.
Defined.

(** X9. The earlier submission reads the two dates as midnight UTC and
    takes their local years: at or east of UTC the validity period that it
    sends is the difference of the years of the two dates; west of UTC it is
    the difference of the years of the days before them. *)
Theorem earlier_validityPeriod_by_zone
  (tz : Z) (data : Values.t) (s e : DateInput.t) :
  DateInput.wellFormed s -> DateInput.wellFormed e ->
  Values.startDate data = DateInput.value s ->
  Values.endDate data = DateInput.value e ->
  (0 <= tz < 1440 ->
   Earlier.validityPeriod tz data = Some (DateInput.year e - DateInput.year s))
  /\ (-1440 <= tz < 0 ->
      Earlier.validityPeriod tz data
      = Some (JsDate.YearFromDay (DateInput.dayNumber e - 1)
              - JsDate.YearFromDay (DateInput.dayNumber s - 1))).
Proof.
  intros Hs He Es Ee. unfold Earlier.validityPeriod, Earlier.Date_of_string.
  rewrite Es, Ee, !DayjsFacts.parse_value by assumption.
  unfold DateInput.timeValue. split; intros Hz.
  - rewrite !EarlierFacts.getFullYear_utc_midnight_east by assumption.
    pose proof (AnniversaryFacts.dayNumber_in_year s Hs) as Bs.
    pose proof (AnniversaryFacts.dayNumber_in_year e He) as Be.
    now rewrite (JsDateFacts.YearFromDay_unique _ _ Bs),
      (JsDateFacts.YearFromDay_unique _ _ Be).
  - now rewrite !EarlierFacts.getFullYear_utc_midnight_west by assumption.
Qed.

Lemma earlier_validityPeriod_by_zone_witness :
  Earlier.validityPeriod (-300)
    (Values.mk "" "" "" "" None "" "2026-01-01" "2027-06-01")
  = Some (JsDate.YearFromDay (DateInput.dayNumber (DateInput.mk 2027 6 1) - 1)
          - JsDate.YearFromDay (DateInput.dayNumber (DateInput.mk 2026 1 1) - 1)).
Proof.
  apply (earlier_validityPeriod_by_zone (-300) _ (DateInput.mk 2026 1 1)
           (DateInput.mk 2027 6 1));
    [calendar_date | calendar_date | reflexivity | reflexivity | lia].
Defined.

(** ** The schema on a whole form *)

Module FormFacts.

Import JsDate.

Lemma required_None message s :
  Yup.firstError [Yup.required message] s = None <-> s <> "".
Proof.
  unfold Yup.firstError, Yup.required. destruct s as [| c r]; cbn; split;
    (congruence || discriminate || reflexivity).
Qed.

Lemma description_None s :
  Yup.firstError Constants.description_tests s = None
  <-> (1 <= String.length s <= 150)%nat.
Proof.
  unfold Constants.description_tests, Yup.firstError, Yup.max, Yup.required,
    Constants.DESCRIPTION_MAX_LENGTH.
  destruct (Nat.leb_spec (String.length s) 150) as [Hl | Hl];
    destruct (Nat.eqb_spec (String.length s) 0) as [Hz | Hz]; split; intros Hx;
    (discriminate || reflexivity || lia).
Qed.

Lemma amount_None a :
  Yup.firstError Constants.amount_tests a = None
  <-> exists q, a = Some q /\ (0 < q)%Q.
Proof.
  unfold Constants.amount_tests, Yup.firstError, Yup.positive, Yup.number_required.
  destruct a as [q |].
  - destruct (Js.Qltb 0 q) eqn:E; split.
    + intros _. exists q. split; [reflexivity | now apply DateRuleFacts.Qltb_lt].
    + reflexivity.
    + discriminate.
    + intros (q' & [= <-] & Hq). apply DateRuleFacts.Qltb_lt in Hq. congruence.
  - split; [discriminate | intros (q & [=] & _)].
Qed.

Lemma passes_iff e : Constants.passes e = true <-> e = None.
Proof. destruct e; cbn; split; congruence. Qed.

(** The form is valid when each field passes its tests. *)
Lemma isValid_fields tz now data :
  Constants.isValid tz now data = true <->
  Values.name data <> "" /\ Values.country data <> ""
  /\ Spec.matchesProjectCode (Values.projectCode data)
  /\ (1 <= String.length (Values.description data) <= 150)%nat
  /\ (exists q, Values.amount data = Some q /\ (0 < q)%Q)
  /\ Values.currency data <> ""
  /\ Yup.firstError (Constants.startDate_tests tz now) (Values.startDate data) = None
  /\ Yup.firstError (Constants.endDate_tests tz data) (Values.endDate data) = None.
Proof.
  unfold Constants.isValid, Constants.financingSchema. cbv zeta.
  cbn [Constants.e_name Constants.e_country Constants.e_projectCode
       Constants.e_description Constants.e_amount Constants.e_currency
       Constants.e_startDate Constants.e_endDate].
  rewrite !andb_true_iff, !passes_iff.
  unfold Constants.name_tests, Constants.country_tests, Constants.currency_tests.
  rewrite !required_None, description_None, amount_None.
  pose proof (SchemaFacts.projectCode_error (Values.projectCode data)) as Hp.
  pose proof (SchemaFacts.search_projectCode (Values.projectCode data)) as Hs.
  assert (Hpc : Yup.firstError Constants.projectCode_tests (Values.projectCode data) = None
                <-> Spec.matchesProjectCode (Values.projectCode data)).
  { rewrite Hp. destruct (Yup.search _ _); split; intros H;
      (reflexivity || discriminate || tauto || idtac).
    apply Hs in H. discriminate. }
  rewrite Hpc. tauto.
Qed.

End FormFacts.

(** X10. In a zone of fixed offset, with the dates of two date inputs and
    texts whose characters are one code unit each, the form is valid exactly
    when the name, the country and the currency are not empty, the project
    code is four capital letters, a hyphen and four digits from 1 to 9, the
    description has from 1 to 150 characters, the amount is a number above
    zero, the start date is at least fifteen days after the local day of the
    validation, the end date is on or after the start moved forward by
    twelve months, and the end moved back by thirty-six months is on or
    before the start. *)
Theorem form_valid_iff (tz now : Z) (data : Values.t) (s e : DateInput.t) :
  DateInput.wellFormed s -> DateInput.wellFormed e ->
  Values.startDate data = DateInput.value s ->
  Values.endDate data = DateInput.value e ->
  Constants.isValid tz now data = true <->
  Values.name data <> "" /\ Values.country data <> ""
  /\ Spec.matchesProjectCode (Values.projectCode data)
  /\ (1 <= String.length (Values.description data) <= 150)%nat
  /\ (exists q, Values.amount data = Some q /\ (0 < q)%Q)
  /\ Values.currency data <> ""
  /\ JsDate.Day (JsDate.LocalTime tz now) + 15 <= DateInput.dayNumber s
  /\ DateInput.dayNumber (Months.shift s 12) <= DateInput.dayNumber e
  /\ DateInput.dayNumber (Months.shift e (-36)) <= DateInput.dayNumber s.
Proof.
  intros Hs He Es Ee. rewrite FormFacts.isValid_fields, Es, Ee.
  rewrite (WindowFacts.endDate_None_calendar tz data s e Hs He Es).
  rewrite DateRuleFacts.startDate_error by assumption.
  destruct (Z.leb_spec (JsDate.Day (JsDate.LocalTime tz now) + 15) (DateInput.dayNumber s)).
  - intuition.
  - split; [intros (_ & _ & _ & _ & _ & _ & H' & _); discriminate H' |].
    intros (_ & _ & _ & _ & _ & _ & H' & _). lia.
Qed.

Lemma form_valid_iff_witness :
  Constants.isValid 120 1751324400000
    (Values.mk "Jane Doe" "US" "ABCD-1234" "test" (Some 1000%Q) "EUR"
               "2025-07-21" "2027-07-21") = true.
Proof.
  apply (form_valid_iff 120 1751324400000 _ (DateInput.mk 2025 7 21)
           (DateInput.mk 2027 7 21));
    [calendar_date | calendar_date | reflexivity | reflexivity |].
  split; [discriminate |]. split; [discriminate |].
  split; [apply SchemaFacts.search_projectCode; reflexivity |].
  split; [cbn; lia |].
  split; [exists 1000%Q; split; [reflexivity | reflexivity] |].
  split; [discriminate |].
  split; [vm_compute; discriminate |].
  split; vm_compute; discriminate.
Defined.

(** ** Sessions of the form *)

Module SessionFacts.

Import FinancingForm.

Ltac form_invariant :=
  unfold Spec.formInvariant;
  cbn [values isOpec isSubmitting Values.country Values.currency
       Values.set_country Values.set_currency Values.empty].

Lemma onSubmit_Resolved tz data st tr :
  onSubmit tz data Resolved st tr
  = (tt, mkState Values.empty false false,
     (tr ++ [Post Constants.REQUESTS (apiData tz data);
             ToastSuccess "Financing request submitted successfully!"])%list).
Proof.
  unfold onSubmit, bind, setIsSubmitting, emit, reset, setIsOpec.
  cbn [values isOpec isSubmitting]. rewrite <- app_assoc. reflexivity.
Qed.

Lemma onSubmit_Rejected tz data error st tr :
  onSubmit tz data (Rejected error) st tr
  = (tt, mkState (values st) (isOpec st) false,
     (tr ++ [Post Constants.REQUESTS (apiData tz data); ConsoleError;
             ToastError (errorMessage error)])%list).
Proof.
  unfold onSubmit, bind, setIsSubmitting, emit.
  cbn [values isOpec isSubmitting]. rewrite <- !app_assoc. reflexivity.
Qed.

Lemma setValues_eq f st tr :
  Session.setValues f st tr
  = (tt, mkState (f (values st)) (isOpec st) (isSubmitting st), (tr ++ [])%list).
Proof. unfold Session.setValues. now rewrite app_nil_r. Qed.

(** The body of the values of a form that satisfies the invariant is in
    USD when its country is in the OPEC set. *)
Lemma apiData_opec tz st :
  Spec.formInvariant st ->
  Spec.inOpecSet (Api.countryCode (apiData tz (values st))) ->
  Api.currency (apiData tz (values st)) = "USD".
Proof.
  intros (_ & Ho & Hc). unfold apiData. cbn [Api.countryCode Api.currency].
  intros Hin. apply ControllerFacts.isOpec_spec in Hin. apply Hc. now rewrite Ho.
Qed.

(** One event keeps the invariant and extends the trace, whatever the trace
    is.  It adds a request only together with one notification, and only
    when it is a click on a form whose values pass the schema at the instant
    of the click; the request then carries these values. *)
Lemma handle_step tz ev st :
  Spec.formInvariant st ->
  exists st' new,
    (forall tr, Session.handle tz ev st tr = (tt, st', (tr ++ new)%list))
    /\ Spec.formInvariant st'
    /\ Spec.count Session.isPost new = Spec.count Session.isToast new
    /\ (Spec.count Session.isPost new <= if Session.isClick ev then 1 else 0)%nat
    /\ (forall url body,
           In (Post url body) new ->
           exists now post,
             ev = Session.ClickSubmit now post
             /\ url = Constants.REQUESTS
             /\ body = apiData tz (values st)
             /\ Constants.isValid tz now (values st) = true).
Proof.
  intros Hinv. pose proof Hinv as (Hs & Ho & Hc).
  destruct ev as [v | v | v | v | v | v | v | v | now post];
    cbn [Session.handle Session.isClick].
  1, 3, 4, 5, 7, 8:
    eexists; exists []; split; [intros tr; apply setValues_eq |];
    (split; [form_invariant; tauto |]);
    split; [reflexivity |]; split; [cbn; lia |]; intros url body [].
  - (* the country *)
    destruct (Js.Array_includes Constants.OPEC_COUNTRIES v) eqn:E.
    + eexists; exists []. split.
      { intros tr. rewrite app_nil_r.
        now apply ControllerFacts.changeCountry_opec. }
      split; [form_invariant; rewrite E; tauto |].
      split; [reflexivity |]. split; [cbn; lia |]. intros url body [].
    + eexists; exists []. split.
      { intros tr. rewrite app_nil_r.
        now apply ControllerFacts.changeCountry_other. }
      split; [form_invariant; rewrite E; intuition congruence |].
      split; [reflexivity |]. split; [cbn; lia |]. intros url body [].
  - (* the currency *)
    unfold currencyIsUserEditable. destruct (isOpec st) eqn:E; cbn [negb].
    + exists st, []. split; [intros tr; now rewrite app_nil_r |].
      split; [assumption |].
      split; [reflexivity |]. split; [cbn; lia |]. intros url body [].
    + eexists; exists []. split; [intros tr; apply setValues_eq |].
      split; [form_invariant; rewrite E; intuition congruence |].
      split; [reflexivity |]. split; [cbn; lia |]. intros url body [].
  - (* the button *)
    unfold submit. rewrite Hs. cbn [negb andb].
    destruct (Constants.isValid tz now (values st)) eqn:V.
    + destruct post as [| error].
      * eexists; eexists. split; [intros tr; apply onSubmit_Resolved |].
        split; [form_invariant; intuition congruence |].
        split; [reflexivity |]. split; [cbn; lia |].
        intros url body [Hin | [Hin | []]]; [| discriminate Hin].
        injection Hin as <- <-. exists now, Resolved. auto.
      * eexists; eexists. split; [intros tr; apply onSubmit_Rejected |].
        split; [form_invariant; tauto |].
        split; [reflexivity |]. split; [cbn; lia |].
        intros url body [Hin | [Hin | [Hin | []]]];
          [| discriminate Hin | discriminate Hin].
        injection Hin as <- <-. exists now, (Rejected error). auto.
    + exists st, []. split; [intros tr; now rewrite app_nil_r |].
      split; [assumption |].
      split; [reflexivity |]. split; [cbn; lia |]. intros url body [].
Qed.

Lemma count_app {A : Type} (f : A -> bool) l1 l2 :
  Spec.count f (l1 ++ l2) = (Spec.count f l1 + Spec.count f l2)%nat.
Proof. unfold Spec.count. now rewrite filter_app, length_app. Qed.

Lemma run_steps tz events : forall st,
  Spec.formInvariant st ->
  exists st' new,
    (forall tr, Session.run tz events st tr = (tt, st', (tr ++ new)%list))
    /\ Spec.formInvariant st'
    /\ Spec.count Session.isPost new = Spec.count Session.isToast new
    /\ (Spec.count Session.isPost new <= Spec.count Session.isClick events)%nat.
Proof.
  induction events as [| ev rest IH]; intros st Hinv.
  - exists st, [].
    split; [intros tr; cbn [Session.run]; unfold ret; now rewrite app_nil_r |].
    split; [assumption |]. split; [reflexivity | cbn; lia].
  - destruct (handle_step tz ev st Hinv) as (st1 & new1 & E1 & I1 & C1 & B1 & _).
    destruct (IH st1 I1) as (st2 & new2 & E2 & I2 & C2 & B2).
    exists st2, (new1 ++ new2)%list.
    split.
    { intros tr. cbn [Session.run]. unfold bind.
      rewrite E1, E2, app_assoc. reflexivity. }
    split; [assumption |].
    rewrite !count_app. split; [lia |].
    change (ev :: rest) with ([ev] ++ rest)%list. rewrite count_app.
    unfold Spec.count at 3. cbn [filter].
    destruct (Session.isClick ev); cbn [List.length]; lia.
Qed.

Lemma initial_invariant : Spec.formInvariant Session.initial.
Proof. unfold Spec.formInvariant. cbn. intuition congruence. Qed.

Lemma run_initial tz events :
  exists st' new,
    exec (Session.run tz events) Session.initial = st'
    /\ effects (Session.run tz events) Session.initial = new
    /\ Spec.formInvariant st'
    /\ Spec.count Session.isPost new = Spec.count Session.isToast new
    /\ (Spec.count Session.isPost new <= Spec.count Session.isClick events)%nat.
Proof.
  destruct (run_steps tz events Session.initial initial_invariant)
    as (st' & new & E & H).
  exists st', new. unfold exec, effects. rewrite E. cbn [fst snd app]. tauto.
Qed.

(** Each request of a run comes from one click of the run, on the values
    that the form holds when the events before the click have run. *)
Lemma run_posts tz events : forall st url body,
  Spec.formInvariant st ->
  In (Post url body) (effects (Session.run tz events) st) ->
  exists before now post after,
    events = (before ++ Session.ClickSubmit now post :: after)%list
    /\ url = Constants.REQUESTS
    /\ body = apiData tz (values (exec (Session.run tz before) st))
    /\ Constants.isValid tz now (values (exec (Session.run tz before) st)) = true
    /\ Spec.formInvariant (exec (Session.run tz before) st).
Proof.
  induction events as [| ev rest IH]; intros st url body Hinv Hin.
  - destruct Hin.
  - destruct (handle_step tz ev st Hinv) as (st1 & new1 & E1 & I1 & _ & _ & P1).
    destruct (run_steps tz rest st1 I1) as (st2 & new2 & E2 & _).
    assert (Er : effects (Session.run tz rest) st1 = new2)
      by (unfold effects; now rewrite E2).
    unfold effects in Hin. cbn [Session.run] in Hin. unfold bind in Hin.
    rewrite E1, E2 in Hin. cbn [snd app] in Hin.
    apply in_app_or in Hin. destruct Hin as [Hin | Hin].
    + destruct (P1 url body Hin) as (now & post & -> & Hu & Hb & Hv).
      exists [], now, post, rest.
      split; [reflexivity |].
      change (exec (Session.run tz []) st) with st. auto.
    + rewrite <- Er in Hin.
      destruct (IH st1 url body I1 Hin)
        as (before & now & post & after & -> & Hu & Hb & Hv & Hi).
      exists (ev :: before), now, post, after.
      split; [reflexivity |].
      assert (Ex : exec (Session.run tz (ev :: before)) st
                   = exec (Session.run tz before) st1).
      { destruct (run_steps tz before st1 I1) as (st3 & new3 & E3 & _).
        unfold exec. cbn [Session.run]. unfold bind.
        now rewrite E1, !E3. }
      rewrite Ex. auto.
Qed.

End SessionFacts.

(** X11. In the model of a session (any sequence of changes of the eight
    controls and of clicks on the submit button from the mounted form, each
    submission running to its end before the next event, every click
    reaching [handleSubmit]), each request comes from one click of the
    session: it goes to [REQUESTS], its body is the [apiData] of the values
    that the form holds at that click, these values pass the schema at the
    instant of that click, and the body has USD as currency when its country
    is in the OPEC set.  The schema is the one of a zone of fixed offset. *)
Theorem session_requests_valid_and_opec_in_usd
  (tz : Z) (events : list Session.Event) (url : string) (body : Api.t) :
  In (FinancingForm.Post url body)
     (FinancingForm.effects (Session.run tz events) Session.initial) ->
  exists before now post after,
    events = (before ++ Session.ClickSubmit now post :: after)%list
    /\ let data :=
         FinancingForm.values
           (FinancingForm.exec (Session.run tz before) Session.initial) in
       url = Constants.REQUESTS
       /\ body = FinancingForm.apiData tz data
       /\ Constants.isValid tz now data = true
       /\ (Spec.inOpecSet (Api.countryCode body) -> Api.currency body = "USD").
Proof.
  intros Hin.
  destruct (SessionFacts.run_posts tz events Session.initial url body
              SessionFacts.initial_invariant Hin)
    as (before & now & post & after & E & Hu & Hb & Hv & Hi).
  exists before, now, post, after. split; [exact E |]. cbv zeta.
  split; [exact Hu |]. split; [exact Hb |]. split; [exact Hv |].
  rewrite Hb. now apply SessionFacts.apiData_opec.
Qed.

Lemma session_requests_valid_and_opec_in_usd_witness :
  exists before now post after,
    [ Session.InputName "Jane Doe"; Session.SelectCurrency "EUR";
      Session.SelectCountry "NG"; Session.SelectCurrency "EUR";
      Session.InputProjectCode "ABCD-1234"; Session.InputDescription "test";
      Session.InputAmount (Some 1000%Q); Session.InputStartDate "2025-07-21";
      Session.InputEndDate "2027-07-21";
      Session.ClickSubmit 1751324400000 FinancingForm.Resolved ]
    = (before ++ Session.ClickSubmit now post :: after)%list
    /\ let data :=
         FinancingForm.values
           (FinancingForm.exec (Session.run 60 before) Session.initial) in
       Constants.REQUESTS = Constants.REQUESTS
       /\ FinancingForm.apiData 60
            (Values.mk "Jane Doe" "NG" "ABCD-1234" "test" (Some 1000%Q) "USD"
                       "2025-07-21" "2027-07-21")
          = FinancingForm.apiData 60 data
       /\ Constants.isValid 60 now data = true
       /\ (Spec.inOpecSet
             (Api.countryCode
                (FinancingForm.apiData 60
                   (Values.mk "Jane Doe" "NG" "ABCD-1234" "test" (Some 1000%Q)
                              "USD" "2025-07-21" "2027-07-21"))) ->
           Api.currency
             (FinancingForm.apiData 60
                (Values.mk "Jane Doe" "NG" "ABCD-1234" "test" (Some 1000%Q)
                           "USD" "2025-07-21" "2027-07-21")) = "USD").
Proof.
  apply (session_requests_valid_and_opec_in_usd 60 _ Constants.REQUESTS
           (FinancingForm.apiData 60
              (Values.mk "Jane Doe" "NG" "ABCD-1234" "test" (Some 1000%Q) "USD"
                         "2025-07-21" "2027-07-21"))).
  vm_compute. left. reflexivity.
Defined.

(** X12. In any session from the mounted form, the state between two events
    has no request in flight, [isOpec] tells whether the country of the form
    is in [OPEC_COUNTRIES], and the form holds USD as currency whenever its
    country is in the OPEC set: no sequence of changes of the controls, and
    no submission, leaves an OPEC country with another currency. *)
Theorem session_keeps_opec_currency (tz : Z) (events : list Session.Event) :
  let st := FinancingForm.exec (Session.run tz events) Session.initial in
  FinancingForm.isSubmitting st = false
  /\ (FinancingForm.isOpec st = true
      <-> Spec.inOpecSet (Values.country (FinancingForm.values st)))
  /\ (Spec.inOpecSet (Values.country (FinancingForm.values st)) ->
      Values.currency (FinancingForm.values st) = "USD").
Proof.
  intros st.
  destruct (SessionFacts.run_initial tz events) as (st' & new & E & _ & I & _).
  subst st. rewrite E. destruct I as (Hs & Ho & Hc).
  split; [assumption |]. rewrite Ho, ControllerFacts.isOpec_spec.
  split; [tauto |]. intros Hin. apply Hc. rewrite Ho.
  now apply ControllerFacts.isOpec_spec.
Qed.

(** X13. In any session from the mounted form, the requests are as many as
    the notifications (one success or error toast for each request, and none
    without a request), and at most as many as the clicks on the submit
    button: a request is never sent again for the same click. *)
Theorem session_one_request_per_click (tz : Z) (events : list Session.Event) :
  let tr := FinancingForm.effects (Session.run tz events) Session.initial in
  Spec.count Session.isPost tr = Spec.count Session.isToast tr
  /\ (Spec.count Session.isPost tr <= Spec.count Session.isClick events)%nat.
Proof.
  intros tr.
  destruct (SessionFacts.run_initial tz events) as (st' & new & _ & E & _ & C).
  subst tr. rewrite E. exact C.
Qed.

(** ** The message of a failed request *)

Module ErrorFacts.

Import FinancingForm.

Lemma errorMessage_default r q m :
  ~ Spec.knownStatus (status r) ->
  errorMessage (AxiosError (Some r) q m)
  = orElse (data_message r)
           ("Server error (" ++ Js.Number_toString (status r)
              ++ "). Please try again.").
Proof.
  destruct r as [s d]. cbn [status data_message errorMessage]. cbv zeta.
  intros H.
  destruct s as [| p | p]; try reflexivity.
  do 9 (destruct p as [p | p |]; try reflexivity);
    exfalso; apply H; unfold Spec.knownStatus; tauto.
Qed.

Lemma orElse_not_empty a b : b <> "" -> orElse a b <> "".
Proof.
  intros Hb. unfold orElse. destruct a as [m |]; [| assumption].
  destruct (String.eqb m "") eqn:E; [assumption |].
  now apply String.eqb_neq.
Qed.

Lemma orElse_text text b : text <> "" -> orElse (Some text) b = text.
Proof.
  intros H. unfold orElse. apply String.eqb_neq in H. now rewrite H.
Qed.

Lemma knownStatus_dec s : Spec.knownStatus s \/ ~ Spec.knownStatus s.
Proof. unfold Spec.knownStatus. lia. Qed.

Lemma errorMessage_known r1 r2 q1 q2 m1 m2 :
  Spec.knownStatus (status r1) -> Spec.knownStatus (status r2) ->
  errorMessage (AxiosError (Some r1) q1 m1)
  = errorMessage (AxiosError (Some r2) q2 m2)
  <-> status r1 = status r2.
Proof.
  destruct r1 as [s1 d1], r2 as [s2 d2]. cbn [status].
  unfold Spec.knownStatus.
  intros [-> | [-> | [-> | [-> | [-> | ->]]]]]
         [-> | [-> | [-> | [-> | [-> | ->]]]]];
    cbn [errorMessage status]; cbv zeta; split; intros H;
    (reflexivity || discriminate H).
Qed.

Lemma errorMessage_axios_not_empty resp q m :
  errorMessage (AxiosError resp q m) <> "".
Proof.
  destruct resp as [r |].
  - destruct (knownStatus_dec (status r)) as [K | K].
    + destruct r as [s d]. cbn [status] in K. unfold Spec.knownStatus in K.
      destruct K as [-> | [-> | [-> | [-> | [-> | ->]]]]]; discriminate.
    + rewrite errorMessage_default by assumption.
      apply orElse_not_empty. discriminate.
  - destruct q; cbn [errorMessage]; [discriminate |].
    apply orElse_not_empty. discriminate.
Qed.

End ErrorFacts.

(** X14. The toast of a request that the server answered with an error.
    For the statuses 400, 401, 403, 409, 422 and 500 the message is fixed by
    the status alone (the text of the server, if any, is not shown) and two
    of these statuses never share a message; for any other status the text
    of the server is shown when it is not empty; and no failure that axios
    reports, with or without a response, gives an empty message. *)
Theorem errorMessage_of_axios_error
  (r1 r2 : FinancingForm.Response) (q1 q2 : bool) (m1 m2 text : string) :
  (Spec.knownStatus (FinancingForm.status r1) ->
   Spec.knownStatus (FinancingForm.status r2) ->
   (FinancingForm.errorMessage (FinancingForm.AxiosError (Some r1) q1 m1)
    = FinancingForm.errorMessage (FinancingForm.AxiosError (Some r2) q2 m2)
    <-> FinancingForm.status r1 = FinancingForm.status r2))
  /\ (~ Spec.knownStatus (FinancingForm.status r1) ->
      FinancingForm.data_message r1 = Some text -> text <> "" ->
      FinancingForm.errorMessage (FinancingForm.AxiosError (Some r1) q1 m1) = text)
  /\ (forall resp,
         FinancingForm.errorMessage (FinancingForm.AxiosError resp q1 m1) <> "").
Proof.
  split; [apply ErrorFacts.errorMessage_known |].
  split; [| intros resp; apply ErrorFacts.errorMessage_axios_not_empty].
  intros K E T. rewrite ErrorFacts.errorMessage_default by assumption.
  rewrite E. now apply ErrorFacts.orElse_text.
Qed.

(** ** The reference data *)

Module ProviderFacts.

Import AppProvider.

Section Order.

Variable localeCompare : string -> string -> Z.

Lemma insert_perm x l : Permutation (x :: l) (insert localeCompare x l).
Proof.
  induction l as [| y r IH]; cbn [insert]; [apply Permutation_refl |].
  destruct (localeCompare (common x) (common y) <=? 0);
    [apply Permutation_refl |].
  apply perm_trans with (y :: x :: r); [apply perm_swap | now apply perm_skip].
Qed.

Lemma sort_perm l : Permutation l (sort localeCompare l).
Proof.
  induction l as [| x r IH]; cbn [sort]; [apply perm_nil |].
  apply perm_trans with (x :: sort localeCompare r);
    [now apply perm_skip | apply insert_perm].
Qed.

(** A list that is in order already is left as it is. *)
Lemma sort_sorted_id l :
  StronglySorted (fun x y => localeCompare (common x) (common y) <= 0) l ->
  sort localeCompare l = l.
Proof.
  induction 1 as [| x r Hs IH Hf]; cbn [sort]; [reflexivity |].
  rewrite IH. destruct r as [| y r']; [reflexivity |].
  cbn [insert]. apply Forall_inv in Hf. cbv beta in Hf.
  apply Z.leb_le in Hf. now rewrite Hf.
Qed.

Hypothesis total : forall a b, localeCompare a b <= 0 \/ localeCompare b a <= 0.
Hypothesis transitive :
  forall a b c, localeCompare a b <= 0 -> localeCompare b c <= 0 ->
                localeCompare a c <= 0.

Lemma insert_sorted x l :
  StronglySorted (fun x y => localeCompare (common x) (common y) <= 0) l ->
  StronglySorted (fun x y => localeCompare (common x) (common y) <= 0)
    (insert localeCompare x l).
Proof.
  induction 1 as [| y r Hs IH Hf]; cbn [insert].
  - constructor; constructor.
  - destruct (Z.leb_spec (localeCompare (common x) (common y)) 0) as [Hle | Hgt].
    + constructor; [now constructor |].
      constructor; [exact Hle |].
      apply Forall_impl with (P := fun z => localeCompare (common y) (common z) <= 0); [| exact Hf].
      intros z Hz. cbv beta in *. now apply transitive with (common y).
    + constructor; [exact IH |].
      apply (Permutation_Forall (insert_perm x r)).
      constructor; [| exact Hf].
      cbv beta. destruct (total (common y) (common x)); [assumption | lia].
Qed.

Lemma sort_sorted l :
  StronglySorted (fun x y => localeCompare (common x) (common y) <= 0)
    (sort localeCompare l).
Proof.
  induction l as [| x r IH]; cbn [sort]; [constructor | now apply insert_sorted].
Qed.

End Order.

Lemma sorted_map (R : string -> string -> Prop) l :
  StronglySorted (fun x y => R (common x) (common y)) l ->
  StronglySorted (fun x y => R (label x) (label y)) (map toCountry l).
Proof.
  induction 1 as [| x r Hs IH Hf]; cbn [map]; constructor; [assumption |].
  apply Forall_map. exact Hf.
Qed.

End ProviderFacts.

(** X15. When the catalogue of countries arrives, with a comparison of names
    that is total and transitive, the options of the country select are the
    entries of the catalogue, each once ([name.common] as label and [cca2]
    as value), in the order of their names; a catalogue that is in order
    already keeps its order, entries of equal name included. *)
Theorem countries_sorted_by_name
  (localeCompare : string -> string -> Z)
  (data : list AppProvider.CountryApiResponse)
  (currenciesResponse : AppProvider.Settled AppProvider.Currency)
  (st : AppProvider.State) :
  (forall a b, localeCompare a b <= 0 \/ localeCompare b a <= 0) ->
  (forall a b c, localeCompare a b <= 0 -> localeCompare b c <= 0 ->
                 localeCompare a c <= 0) ->
  let options :=
    AppProvider.countries
      (fst (AppProvider.fetchData localeCompare
              (AppProvider.Fulfilled (Some data)) currenciesResponse st)) in
  Permutation (map AppProvider.toCountry data) options
  /\ StronglySorted
       (fun x y => localeCompare (AppProvider.label x) (AppProvider.label y) <= 0)
       options
  /\ (StronglySorted
        (fun x y => localeCompare (AppProvider.common x) (AppProvider.common y) <= 0)
        data ->
      options = map AppProvider.toCountry data).
Proof.
  intros Htot Htrans options.
  assert (E : options = map AppProvider.toCountry (AppProvider.sort localeCompare data)).
  { subst options. unfold AppProvider.fetchData.
    destruct currenciesResponse; reflexivity. }
  rewrite E. split; [| split].
  - apply Permutation_map, ProviderFacts.sort_perm.
  - apply (ProviderFacts.sorted_map (fun a b => localeCompare a b <= 0)).
    now apply ProviderFacts.sort_sorted.
  - intros Hs. now rewrite ProviderFacts.sort_sorted_id.
Qed.

Lemma countries_sorted_by_name_witness :
  StronglySorted
    (fun x y =>
       Z.of_nat (String.length (AppProvider.label x))
       - Z.of_nat (String.length (AppProvider.label y)) <= 0)
    (AppProvider.countries
       (fst (AppProvider.fetchData
               (fun a b => Z.of_nat (String.length a) - Z.of_nat (String.length b))
               (AppProvider.Fulfilled
                  (Some [ AppProvider.mkEntry "Nigeria" "NG";
                          AppProvider.mkEntry "Chad" "TD";
                          AppProvider.mkEntry "Gabon" "GA" ]))
               AppProvider.RejectedPromise AppProvider.initial))).
Proof.
  refine (proj1 (proj2 (countries_sorted_by_name
    (fun a b => Z.of_nat (String.length a) - Z.of_nat (String.length b))
    [ AppProvider.mkEntry "Nigeria" "NG"; AppProvider.mkEntry "Chad" "TD";
      AppProvider.mkEntry "Gabon" "GA" ]
    AppProvider.RejectedPromise AppProvider.initial _ _))).
  - intros a b. lia.
  - intros a b c. lia.
Defined.

(** X16. The outcome of the loading of the reference data.  Loading is over
    in every case.  When the catalogue of countries is an array or its
    request failed, the two requests are handled apart: each list is the
    data of its request, or its fallback list when the request failed, with
    one error toast for each request that failed.  When the request of the
    countries succeeded with data that is not an array, neither list is set,
    also when the currencies arrived, and the single toast asks to refresh
    the page.  No country of the fallback list is in the OPEC set. *)
Theorem fetchData_outcome
  (localeCompare : string -> string -> Z)
  (countriesResponse :
     AppProvider.Settled (option (list AppProvider.CountryApiResponse)))
  (currenciesResponse : AppProvider.Settled AppProvider.Currency)
  (st : AppProvider.State) :
  let r := AppProvider.fetchData localeCompare countriesResponse
             currenciesResponse st in
  AppProvider.isLoading (fst r) = false
  /\ match countriesResponse with
     | AppProvider.Fulfilled None =>
         AppProvider.countries (fst r) = AppProvider.countries st
         /\ AppProvider.currencies (fst r) = AppProvider.currencies st
         /\ snd r
            = [ AppProvider.ConsoleError;
                AppProvider.ToastError
                  "Failed to load application data. Please refresh the page." ]
     | _ =>
         AppProvider.currencies (fst r)
         = match currenciesResponse with
           | AppProvider.Fulfilled data => data
           | AppProvider.RejectedPromise => AppProvider.fallbackCurrencies
           end
         /\ AppProvider.countries (fst r)
            = match countriesResponse with
              | AppProvider.Fulfilled (Some data) =>
                  map AppProvider.toCountry (AppProvider.sort localeCompare data)
              | _ => AppProvider.fallbackCountries
              end
         /\ Spec.count AppProvider.isToast (snd r)
            = ((if AppProvider.rejected countriesResponse then 1 else 0)
               + (if AppProvider.rejected currenciesResponse then 1 else 0))%nat
     end
  /\ (forall c, In c AppProvider.fallbackCountries ->
                ~ Spec.inOpecSet (AppProvider.value c)).
Proof.
  intros r. subst r. split; [| split].
  - destruct countriesResponse as [[data |] |], currenciesResponse; reflexivity.
  - destruct countriesResponse as [[data |] |], currenciesResponse;
      repeat split; reflexivity.
  - intros c Hin. unfold AppProvider.fallbackCountries in Hin. cbn [In] in Hin.
    unfold Spec.inOpecSet.
    repeat (destruct Hin as [<- | Hin]; [cbn [AppProvider.value];
      intros H; repeat (destruct H as [H | H]; [discriminate H |]); discriminate H |]).
    contradiction.
Qed.

(** ** The dark mode *)

(** X17. The dark mode survives a reload: after the effect has run for a
    value of [isDarkMode], the initial value that the component computes
    from the browser is that value, whatever the preference of the system,
    and the class [dark] of the document is set exactly when the value is
    true; on a first visit, with no saved item, the initial value is the
    preference of the system; two toggles give back the value. *)
Theorem darkMode_survives_reload (isDarkMode : bool) (br : App.Browser) :
  App.initialDarkMode (App.darkModeEffect isDarkMode br) = Some isDarkMode
  /\ App.darkClass (App.darkModeEffect isDarkMode br) = isDarkMode
  /\ App.initialDarkMode
       (App.mkBrowser None (App.prefersDark br) (App.darkClass br))
     = Some (App.prefersDark br)
  /\ App.initialDarkMode
       (App.darkModeEffect (App.toggleDarkMode isDarkMode)
          (App.darkModeEffect isDarkMode br))
     = Some (negb isDarkMode)
  /\ App.toggleDarkMode (App.toggleDarkMode isDarkMode) = isDarkMode.
Proof.
  destruct isDarkMode; repeat split.
Qed.
